(** * wmsr: saving and restoring window geometry — a Rocq model of [wmsr.py]

    The development embeds the Python script [wmsr.py] shallowly:

    - values decoded from the state file are trees of type [json] (what
      [json.load] builds), and the Python operations the script applies to
      them ([==], iteration, subscripting, [int], [set], [len]) are total
      functions returning a [result];
    - the script's effects (lines printed, requests sent to the window
      manager, the file written) are collected in a trace of [event]s by a
      small writer-and-exception monad [M];
    - the window server is a record [EWMH] of read functions: one snapshot
      of the server, as seen during one capture.

    Conventions.  Strings are byte strings; JSON numbers are integers
    (the script only ever writes integers).  The text layer of the [json]
    module is not modelled: [dumps] yields the document tree that
    [json.dumps] writes out and [read_data] receives the tree that
    [json.load] builds.  A request to the window manager is recorded when
    it is issued; what the server does with it is not modelled.  The
    connection to the server and the variable [HOME] are assumed to be
    there. *)

From Stdlib Require Import Ascii.
From stdpp Require Import gmap strings list sets pretty.

Set Warnings "-register-all".

(** ** Python values and exceptions *)

(** The values [json.load] can build. *)
Inductive json : Type :=
  | JNull
  | JBool (b : bool)
  | JNum (z : Z)
  | JStr (s : string)
  | JArr (l : list json)
  | JObj (kvs : list (string * json)).

(** The exceptions that can occur in the script.  [OutOfFuel] is not a
    Python exception: it marks a loop of the model that was stopped by its
    iteration bound while the Python loop would still be running. *)
Inductive exn : Type :=
  | KeyError
  | TypeError
  | ValueError
  | IndexError
  | AttributeError
  | UnicodeDecodeError
  | RecursionError
  | BadWindow
  | OutOfFuel.

Inductive result (A : Type) : Type :=
  | Ok (a : A)
  | Raise (e : exn).
Arguments Ok {A} a.
Arguments Raise {A} e.

#[global] Instance result_ret : MRet result := λ A a, Ok a.
#[global] Instance result_bind : MBind result := λ A B f r,
  match r with
  | Ok a => f a
  | Raise e => Raise e
  end.
#[global] Instance result_fmap : FMap result := λ A B f r,
  match r with
  | Ok a => Ok (f a)
  | Raise e => Raise e
  end.

(** [mapM] for [result], left to right, stopping at the first exception. *)
Fixpoint result_mapM {A B} (f : A → result B) (l : list A) : result (list B) :=
  match l with
  | [] => Ok []
  | a :: l' =>
      match f a with
      | Ok b =>
          match result_mapM f l' with
          | Ok bs => Ok (b :: bs)
          | Raise e => Raise e
          end
      | Raise e => Raise e
      end
  end.

(** ** Insertion-ordered dictionaries

    A Python [dict] keeps its keys in insertion order; assigning to a key
    that is present replaces the value in place. *)
Section pydict.
Context {K V : Type} `{EqDecision K}.

Fixpoint dict_get (d : list (K * V)) (k : K) : option V :=
  match d with
  | [] => None
  | (k', v) :: d' => if decide (k' = k) then Some v else dict_get d' k
  end.

Fixpoint dict_set (d : list (K * V)) (k : K) (v : V) : list (K * V) :=
  match d with
  | [] => [(k, v)]
  | (k', v') :: d' =>
      if decide (k' = k) then (k, v) :: d' else (k', v') :: dict_set d' k v
  end.
End pydict.

(** ** Sets of strings and their iteration order

    Python does not fix the order in which a [set] is iterated.  The model
    is parametric in that order: any enumeration of the elements without
    repetition will do. *)
Class SetOrder : Type := {
  list_of_set : gset string → list string;
  list_of_set_perm : ∀ s, list_of_set s ≡ₚ elements s
}.

(** One possible order, used to run the model on concrete inputs. *)
Definition elements_order : SetOrder :=
  {| list_of_set := elements; list_of_set_perm := λ s, reflexivity _ |}.

(** ** Python operations on decoded values *)

(** [v == z] for an [int] [z]: a number compares by value, [True] and
    [False] compare as 1 and 0, anything else is different. *)
Definition py_eq_int (v : json) (z : Z) : bool :=
  match v with
  | JNum z' => bool_decide (z' = z)
  | JBool b => bool_decide (Z.b2z b = z)
  | _ => false
  end.

Fixpoint py_eq_ints (vs : list json) (zs : list Z) : bool :=
  match vs, zs with
  | [], [] => true
  | v :: vs', z :: zs' => py_eq_int v z && py_eq_ints vs' zs'
  | _, _ => false
  end.

(** [v == zs] for a list of ints [zs]. *)
Definition py_eq_list (v : json) (zs : list Z) : bool :=
  match v with
  | JArr vs => py_eq_ints vs zs
  | _ => false
  end.

Definition chars (s : string) : list string :=
  (λ c, String c EmptyString) <$> String.list_ascii_of_string s.

(** Iteration: a list yields its elements, a string its characters, a dict
    its keys; [None], numbers and booleans are not iterable. *)
Definition py_iter (v : json) : result (list json) :=
  match v with
  | JArr l => Ok l
  | JStr s => Ok (JStr <$> chars s)
  | JObj kvs => Ok (JStr <$> kvs.*1)
  | _ => Raise TypeError
  end.

(** [len(v)]. *)
Definition py_len (v : json) : result nat :=
  match v with
  | JArr l => Ok (length l)
  | JStr s => Ok (String.length s)
  | JObj kvs => Ok (length kvs)
  | _ => Raise TypeError
  end.

(** [x, y, w, h = v]. *)
Definition unpack4 (v : json) : result (json * json * json * json) :=
  l ← py_iter v;
  match l with
  | [x; y; w; h] => Ok (x, y, w, h)
  | _ => Raise ValueError
  end.

(** Index into a sequence, Python style: negative indices count from the
    end. *)
Definition py_index {A} (l : list A) (i : Z) : result A :=
  let n := Z.of_nat (length l) in
  let j := if bool_decide (i < 0)%Z then (i + n)%Z else i in
  if bool_decide (0 ≤ j < n)%Z then
    match l !! Z.to_nat j with
    | Some a => Ok a
    | None => Raise IndexError
    end
  else Raise IndexError.

(** [o[k]]. *)
Definition py_getitem (o k : json) : result json :=
  match o with
  | JObj kvs =>
      match k with
      | JStr s =>
          match dict_get kvs s with
          | Some v => Ok v
          | None => Raise KeyError
          end
      | JArr _ | JObj _ => Raise TypeError
      | _ => Raise KeyError
      end
  | JArr l =>
      match k with
      | JNum i => py_index l i
      | JBool b => py_index l (Z.b2z b)
      | _ => Raise TypeError
      end
  | JStr s =>
      match k with
      | JNum i => JStr <$> py_index (chars s) i
      | JBool b => JStr <$> py_index (chars s) (Z.b2z b)
      | _ => Raise TypeError
      end
  | _ => Raise TypeError
  end.

(** The elements of [set(v)] that are strings.  Numbers, booleans and
    [None] are hashable and would be elements of the Python set as well;
    the script only ever intersects the set with a set of strings, so
    they are left out.  Lists and dicts are not hashable. *)
Fixpoint set_of_items (l : list json) : result (gset string) :=
  match l with
  | [] => Ok ∅
  | v :: l' =>
      match v with
      | JStr s => (λ acc, {[s]} ∪ acc) <$> set_of_items l'
      | JArr _ | JObj _ => Raise TypeError
      | _ => set_of_items l'
      end
  end.

Definition py_set (v : json) : result (gset string) :=
  l ← py_iter v; set_of_items l.

(** [int(s)] for a string, in base 10: white space around the number is
    ignored, a sign may precede the digits, and single underscores may
    separate digits.  Only ASCII white space and digits are recognised,
    and the interpreter's limit on the number of digits is left out. *)
Definition is_py_space (c : Ascii.ascii) : bool :=
  let n := Ascii.N_of_ascii c in
  (bool_decide (9 ≤ n)%N && bool_decide (n ≤ 13)%N)
  || (bool_decide (28 ≤ n)%N && bool_decide (n ≤ 32)%N).

Fixpoint lstrip (l : list Ascii.ascii) : list Ascii.ascii :=
  match l with
  | c :: l' => if is_py_space c then lstrip l' else l
  | [] => []
  end.

Definition strip (l : list Ascii.ascii) : list Ascii.ascii :=
  reverse (lstrip (reverse (lstrip l))).

Fixpoint int_digits (acc : Z) (after_digit : bool) (l : list Ascii.ascii)
  : option Z :=
  match l with
  | [] => if after_digit then Some acc else None
  | c :: l' =>
      match Ascii.is_nat c with
      | Some d => int_digits (acc * 10 + Z.of_nat d)%Z true l'
      | None =>
          if Ascii.eqb c "_"%char && after_digit then int_digits acc false l'
          else None
      end
  end.

Definition int_of_string (s : string) : option Z :=
  match strip (String.list_ascii_of_string s) with
  | c :: l =>
      if Ascii.eqb c "-"%char then Z.opp <$> int_digits 0 false l
      else if Ascii.eqb c "+"%char then int_digits 0 false l
      else int_digits 0 false (c :: l)
  | [] => None
  end.

(** [int(v)]. *)
Definition py_int (v : json) : result Z :=
  match v with
  | JNum z => Ok z
  | JBool b => Ok (Z.b2z b)
  | JStr s =>
      match int_of_string s with
      | Some z => Ok z
      | None => Raise ValueError
      end
  | _ => Raise TypeError
  end.

(** ** Effects: printed lines and requests to the window manager *)

(** The lines the script prints, by format string and arguments. *)
Inductive msg : Type :=
  | MsgSameGeometry (id : Z)
    (** ['{}: same geometry, not moving'] *)
  | MsgRemoving (id : Z) (states : list string)
    (** ['{}: removing [{}]'], the states joined by [', '] *)
  | MsgMoving (id : Z) (x y w h : json)
    (** ['{}: moving to {}, {}, {}, {}'] *)
  | MsgRestoring (id : Z) (states : list string)
    (** ['{}: restoring [{}]'] *)
  | MsgNotFound (id : json)
    (** ['{}: not found, skipping'] *)
  | MsgLoaded (n : nat)
    (** ['Loaded state of {} windows'] *)
  | MsgSaved (n : nat)
    (** ['Saved state of {} windows.'] *)
  | MsgErrorEncoding
    (** ['Error encoding data: {}'] *)
  | MsgErrorWriting (filename : string)
    (** ['Error writing to {}: {}'] *)
  | MsgErrorReading (filename : string)
    (** ['Error reading from {}: {}'] *)
  | MsgErrorDecoding
    (** ['Error decoding data: {}'] *)
  | MsgSavingAll
    (** ['Saving state of all windows...'] *)
  | MsgRestoringAll
    (** ['Restoring state of all windows...'] *)
  | MsgUsage (default_state_path : string)
    (** the three lines of [usage()] *).

Inductive event : Type :=
  | Print (m : msg)
  | SetWmState (win : Z) (action : Z) (data1 data2 : json)
    (** [ew.setWmState(win, action, data1, data2)] *)
  | SetMoveResizeWindow (win : Z) (x y w h : json)
    (** [ew.setMoveResizeWindow(win, x=x, y=y, w=w, h=h)] *)
  | Flush
    (** [ew.display.flush()] *)
  | WriteFile (filename : string) (data : json)
    (** [fp.write(data)] on a file opened for writing *).

(** A run: the events so far, and a value or the exception that ended it. *)
Record M (A : Type) : Type := Run { trace : list event; outcome : result A }.
Arguments Run {A} trace outcome.
Arguments trace {A} m.
Arguments outcome {A} m.

#[global] Instance M_ret : MRet M := λ A a, Run [] (Ok a).
#[global] Instance M_bind : MBind M := λ A B f m,
  match outcome m with
  | Ok a => Run (trace m ++ trace (f a)) (outcome (f a))
  | Raise e => Run (trace m) (Raise e)
  end.

Definition emit (e : event) : M unit := Run [e] (Ok ()).
Definition print (m : msg) : M unit := emit (Print m).
Definition lift {A} (r : result A) : M A := Run [] r.

(** [for a in l: body(a)]. *)
Fixpoint for_each {A} (l : list A) (body : A → M unit) : M unit :=
  match l with
  | [] => mret ()
  | a :: l' => body a;; for_each l' body
  end.

(** The calls on the adapter: state changes, move/resize, and the final
    flush. *)
Definition is_adapter_call (e : event) : bool :=
  match e with
  | SetWmState _ _ _ _ | SetMoveResizeWindow _ _ _ _ _ | Flush => true
  | _ => false
  end.

Definition adapter_calls (t : list event) : list event :=
  List.filter is_adapter_call t.

(** ** class WmWindow *)

Record WmWindow : Type := {
  win : Z;                (** the Xlib window, by its resource id *)
  id : Z;
  type : list string;
  state : gset string;
  geometry : list Z;
  name : string
}.

Definition MAXIMIZED_VERT : string := "_NET_WM_STATE_MAXIMIZED_VERT".
Definition MAXIMIZED_HORZ : string := "_NET_WM_STATE_MAXIMIZED_HORZ".
Definition MAXIMIZED_STATES : gset string := {[MAXIMIZED_VERT; MAXIMIZED_HORZ]}.

Definition SKIP_ATTR : list string := ["win"].

Definition ACTION_REMOVE : Z := 0.
Definition ACTION_ADD : Z := 1.
Definition ACTION_TOGGLE : Z := 2.

Section move.
Context `{SetOrder}.

(** [states_list = list(states) + [0]] and the call
    [ew.setWmState(self.win, action, states_list[0], states_list[1])]. *)
Definition states_list (states : gset string) : list json :=
  (JStr <$> list_of_set states) ++ [JNum 0].

Definition set_states (self : WmWindow) (action : Z) (states : gset string)
  : M unit :=
  data1 ← lift (py_index (states_list states) 0);
  data2 ← lift (py_index (states_list states) 1);
  emit (SetWmState self.(win) action data1 data2).

(** [WmWindow.move(self, geometry, ew, state=None)]; [st = None] is the
    default [state=None]. *)
Definition move (self : WmWindow) (geom : json) (st : option (gset string))
  : M unit :=
  if py_eq_list geom self.(geometry) then
    print (MsgSameGeometry self.(id))
  else
    let states := self.(state) ∩ MAXIMIZED_STATES in
    (if bool_decide (0 < size states) then
       print (MsgRemoving self.(id) (list_of_set states));;
       set_states self ACTION_REMOVE states
     else mret ());;
    '(x, y, w, h) ← lift (unpack4 geom);
    print (MsgMoving self.(id) x y w h);;
    emit (SetMoveResizeWindow self.(win) x y w h);;
    let states :=
      match st with
      | Some target => target ∩ MAXIMIZED_STATES
      | None => states
      end in
    if bool_decide (0 < size states) then
      print (MsgRestoring self.(id) (list_of_set states));;
      set_states self ACTION_ADD states
    else mret ().
End move.

(** ** The window server *)

(** [bytes.decode('utf-8')]: a [str] is kept as its UTF-8 encoding, so that
    decoding is the identity on well-formed byte sequences and raises on
    the others. *)
Definition byte_in (lo hi : N) (c : Ascii.ascii) : bool :=
  bool_decide (lo ≤ Ascii.N_of_ascii c)%N
  && bool_decide (Ascii.N_of_ascii c ≤ hi)%N.

Definition utf8_lead3 (c c1 : Ascii.ascii) : bool :=
  (byte_in 224 224 c && byte_in 160 191 c1)
  || (byte_in 225 236 c && byte_in 128 191 c1)
  || (byte_in 237 237 c && byte_in 128 159 c1)
  || (byte_in 238 239 c && byte_in 128 191 c1).

Definition utf8_lead4 (c c1 : Ascii.ascii) : bool :=
  (byte_in 240 240 c && byte_in 144 191 c1)
  || (byte_in 241 243 c && byte_in 128 191 c1)
  || (byte_in 244 244 c && byte_in 128 143 c1).

Fixpoint utf8_valid (l : list Ascii.ascii) : bool :=
  match l with
  | [] => true
  | c :: l1 =>
      if byte_in 0 127 c then utf8_valid l1
      else
        match l1 with
        | [] => false
        | c1 :: l2 =>
            if byte_in 194 223 c && byte_in 128 191 c1 then utf8_valid l2
            else
              match l2 with
              | [] => false
              | c2 :: l3 =>
                  if utf8_lead3 c c1 && byte_in 128 191 c2 then utf8_valid l3
                  else
                    match l3 with
                    | [] => false
                    | c3 :: l4 =>
                        if utf8_lead4 c c1 && byte_in 128 191 c2
                           && byte_in 128 191 c3
                        then utf8_valid l4
                        else false
                    end
              end
        end
  end.

Definition decode_utf8 (b : string) : result string :=
  if utf8_valid (String.list_ascii_of_string b) then Ok b
  else Raise UnicodeDecodeError.

(** The reply of [win.get_geometry()]. *)
Record XGeometry : Type := {
  geo_x : Z; geo_y : Z; geo_width : Z; geo_height : Z
}.

(** What the script reads from the server through [ewmh.EWMH] and
    [Xlib]: each read returns a value or raises (a window can vanish at
    any time, which Xlib reports as [BadWindow]).  Windows are named by
    their resource id.  [tree_depth] bounds the depth of the window tree
    under the root. *)
Record EWMH : Type := {
  root : Z;
  getClientList : result (list Z);
  getWmWindowType : Z → result (list string);  (** [getWmWindowType(win, True)] *)
  getWmState : Z → result (list string);       (** [getWmState(win, True)] *)
  getWmName : Z → result (option string);      (** bytes, or [None] *)
  win_get_geometry : Z → result XGeometry;     (** [win.get_geometry()] *)
  query_tree_parent : Z → result Z;            (** [win.query_tree().parent] *)
  tree_depth : nat
}.

(** [WmDisplay.get_frame(client, root)]: climb from the client window to
    the ancestor that is a child of the root. *)
Fixpoint get_frame_loop (ew : EWMH) (fuel : nat) (frame root : Z) : result Z :=
  match fuel with
  | O => Raise OutOfFuel
  | S fuel' =>
      parent ← ew.(query_tree_parent) frame;
      if bool_decide (parent ≠ root) then
        frame' ← ew.(query_tree_parent) frame;
        get_frame_loop ew fuel' frame' root
      else Ok frame
  end.

Definition get_frame (ew : EWMH) (client root : Z) : result Z :=
  get_frame_loop ew ew.(tree_depth) client root.

(** [WmWindow.get_geometry(self, root)]: position of the frame, size of
    the client window. *)
Definition get_geometry (ew : EWMH) (win root : Z) : result (list Z) :=
  geo_w ← ew.(win_get_geometry) win;
  frame ← get_frame ew win root;
  geo_f ← ew.(win_get_geometry) frame;
  Ok [geo_f.(geo_x); geo_f.(geo_y); geo_w.(geo_width); geo_w.(geo_height)].

(** [WmWindow(win, ew)] for a window [win]. *)
Definition WmWindow_init (w : Z) (ew : EWMH) : result WmWindow :=
  ty ← ew.(getWmWindowType) w;
  st ← ew.(getWmState) w;
  raw ← ew.(getWmName) w;
  nm ← match raw with
       | Some b => decode_utf8 b
       | None => Raise AttributeError
       end;
  geo ← get_geometry ew w ew.(root);
  Ok {| win := w; id := w; type := ty; state := list_to_set st;
        geometry := geo; name := nm |}.

(** ** class WmWindowPersister *)

Definition NORMAL : string := "_NET_WM_WINDOW_TYPE_NORMAL".

Record WmWindowPersister : Type := {
  ew : EWMH;
  windows : option (list (Z * WmWindow))
}.

(** The loop of [get_windows], from the dict built so far. *)
Fixpoint get_windows_loop (ew : EWMH) (filter : bool) (wins : list Z)
    (windows : list (Z * WmWindow)) : result (list (Z * WmWindow)) :=
  match wins with
  | [] => Ok windows
  | win :: wins' =>
      w ← WmWindow_init win ew;
      get_windows_loop ew filter wins'
        (if negb filter
            || (bool_decide (length w.(type) = 1)
                && bool_decide (w.(type) !! 0 = Some NORMAL))
         then dict_set windows win w
         else windows)
  end.

(** [get_windows(self, filter=True)]; the new value of [self.windows]. *)
Definition get_windows (ew : EWMH) (filter : bool)
  : result (list (Z * WmWindow)) :=
  wins ← ew.(getClientList);
  get_windows_loop ew filter wins [].

(** *** Encoding

    The objects handed to [json.dumps]: the values it encodes natively,
    and the three it does not ([set], the Xlib window, [WmWindow]), for
    which it calls the [default] hook. *)
Inductive pykey : Type :=
  | KInt (z : Z)
  | KStr (s : string).

#[global] Instance pykey_eq_dec : EqDecision pykey.
Proof. solve_decision. Defined.

Inductive pyobj : Type :=
  | PNone
  | PBool (b : bool)
  | PInt (z : Z)
  | PStr (s : string)
  | PList (l : list pyobj)
  | PDict (kvs : list (pykey * pyobj))
  | PSet (s : gset string)
  | PXWindow (w : Z)
  | PWmWindow (w : WmWindow).

(** [obj.__dict__] of a [WmWindow], in the order [__init__] assigns the
    attributes. *)
Definition obj_dict (obj : WmWindow) : list (string * pyobj) :=
  [("win", PXWindow obj.(win));
   ("id", PInt obj.(id));
   ("type", PList (PStr <$> obj.(type)));
   ("state", PSet obj.(state));
   ("geometry", PList (PInt <$> obj.(geometry)));
   ("name", PStr obj.(name))].

Section encoding.
Context `{SetOrder}.

(** [WmWindow.serializer(obj)]. *)
Definition serializer (obj : pyobj) : result pyobj :=
  match obj with
  | PWmWindow w =>
      Ok (PDict
            (foldl (λ data '(key, v),
                      if bool_decide (key ∈ SKIP_ATTR) then data
                      else dict_set data (KStr key) v)
                   [] (obj_dict w)))
  | PSet s => Ok (PList (PStr <$> list_of_set s))
  | _ => Raise TypeError
  end.

(** The key of a dict as [json.dumps] writes it. *)
Definition key_string (k : pykey) : string :=
  match k with
  | KInt z => pretty z
  | KStr s => s
  end.

(** [json.dumps(o, default=default)] as a tree: native values are encoded
    structurally, any other object is replaced by [default(o)] and encoded
    again.  [fuel] bounds the nesting, as the interpreter's recursion limit
    does. *)
Fixpoint json_encode (default : pyobj → result pyobj) (fuel : nat) (o : pyobj)
  : result json :=
  match fuel with
  | O => Raise RecursionError
  | S fuel' =>
      match o with
      | PNone => Ok JNull
      | PBool b => Ok (JBool b)
      | PInt z => Ok (JNum z)
      | PStr s => Ok (JStr s)
      | PList l => JArr <$> result_mapM (json_encode default fuel') l
      | PDict kvs =>
          JObj <$> result_mapM
                     (λ '(k, v),
                        v' ← json_encode default fuel' v;
                        Ok (key_string k, v'))
                     kvs
      | _ => o' ← default o; json_encode default fuel' o'
      end
  end.

(** [self.windows] as a Python object. *)
Definition windows_obj (windows : option (list (Z * WmWindow))) : pyobj :=
  match windows with
  | None => PNone
  | Some d => PDict ((λ '(i, w), (KInt i, PWmWindow w)) <$> d)
  end.

(** [dumps(self)]: the document, or [None] after a [TypeError]. *)
Definition dumps (limit : nat) (self : WmWindowPersister) : M (option json) :=
  match json_encode serializer limit (windows_obj self.(windows)) with
  | Ok doc => mret (Some doc)
  | Raise TypeError => print MsgErrorEncoding;; mret None
  | Raise e => lift (Raise e)
  end.
End encoding.

(** *** Files and the process environment *)

(** What opening and decoding a file gives: an [IOError], a
    [JSONDecodeError], or the decoded document. *)
Inductive file_content : Type :=
  | Unreadable
  | NotJson
  | Document (doc : json).

Record World : Type := {
  HOME : string;                    (** [os.environ['HOME']] *)
  display : EWMH;                   (** the server [ewmh.EWMH()] connects to *)
  file : string → file_content;     (** reading a path *)
  writable : string → bool;         (** whether a path can be written *)
  recursion_limit : nat
}.

(** [read_data(filename)]; Python's [None] is [JNull]. *)
Definition read_data (w : World) (filename : string) : M json :=
  match w.(file) filename with
  | Unreadable => print (MsgErrorReading filename);; mret JNull
  | NotJson => print MsgErrorDecoding;; mret JNull
  | Document doc => mret doc
  end.

(** [self.windows] after [if self.windows is None or reload:
    self.get_windows()]. *)
Definition current_windows (self : WmWindowPersister) (reload : bool)
  : result (list (Z * WmWindow)) :=
  match self.(windows) with
  | Some d => if reload then get_windows self.(ew) true else Ok d
  | None => get_windows self.(ew) true
  end.

Section persister.
Context `{SetOrder}.

(** [save(self, filename, reload=False)]: the persister afterwards and the
    value returned. *)
Definition save (w : World) (self : WmWindowPersister) (filename : string)
    (reload : bool) : M (WmWindowPersister * bool) :=
  live ← lift (current_windows self reload);
  let self' := {| ew := self.(ew); windows := Some live |} in
  data ← dumps w.(recursion_limit) self';
  match data with
  | None => mret (self', false)
  | Some doc =>
      if w.(writable) filename then
        emit (WriteFile filename doc);;
        print (MsgSaved (length live));;
        mret (self', true)
      else
        print (MsgErrorWriting filename);;
        mret (self', false)
  end.

(** The body of the loop of [restore], for the key [id] of the loaded
    document [loaded]; [live] is [self.windows]. *)
Definition restore_entry (live : list (Z * WmWindow)) (loaded id : json)
  : M unit :=
  entry ← lift (py_getitem loaded id);
  iid ← lift (py_int id);
  match dict_get live iid with
  | None => print (MsgNotFound id)
  | Some cur_win =>
      geom ← lift (py_getitem entry (JStr "geometry"));
      st ← lift (py_getitem entry (JStr "state"));
      target ← lift (py_set st);
      move cur_win geom (Some target)
  end.

(** [for id in windows: ...] of [restore]. *)
Definition restore_loop (live : list (Z * WmWindow)) (loaded : json) : M unit :=
  ids ← lift (py_iter loaded);
  for_each ids (restore_entry live loaded).

(** [restore(self, filename, reload=False)]: the persister afterwards and
    the value returned, [False] or [None]. *)
Definition restore (w : World) (self : WmWindowPersister) (filename : string)
    (reload : bool) : M (WmWindowPersister * option bool) :=
  loaded ← read_data w filename;
  match loaded with
  | JNull => mret (self, Some false)
  | _ =>
      n ← lift (py_len loaded);
      print (MsgLoaded n);;
      live ← lift (current_windows self reload);
      restore_loop live loaded;;
      emit Flush;;
      mret ({| ew := self.(ew); windows := Some live |}, None)
  end.

(** ** The command line *)

(** [os.path.join(a, b)] on POSIX. *)
Definition path_join (a b : string) : string :=
  if String.prefix "/" b then b
  else if bool_decide (a = "")
          || bool_decide (last (String.list_ascii_of_string a) = Some "/"%char)
       then a +:+ b
       else a +:+ "/" +:+ b.

Definition DEFAULT_STATE_PATH (w : World) : string :=
  path_join w.(HOME) ".windows.json".

(** [get_options()] on [sys.argv = argv]; [None] stands for the pair
    [(False, False)]. *)
Definition get_options (w : World) (argv : list string)
  : result (option (string * string)) :=
  match argv with
  | [] => Raise IndexError
  | _ :: args =>
      if bool_decide (length args < 1) || bool_decide (2 < length args)
      then Ok None
      else
        match args with
        | [] => Raise IndexError
        | action :: args' =>
            if bool_decide (action ∉ ["save"; "restore"]) then Ok None
            else
              Ok (Some (action,
                        match args' with
                        | state_path :: _ => state_path
                        | [] => DEFAULT_STATE_PATH w
                        end))
        end
  end.

(** The [__main__] block; the value is the status passed to [sys.exit],
    or 0 when the script runs to its end. *)
Definition main (w : World) (argv : list string) : M Z :=
  opts ← lift (get_options w argv);
  match opts with
  | None => print (MsgUsage (DEFAULT_STATE_PATH w));; mret 1%Z
  | Some (action, state_file_path) =>
      let wmsr := {| ew := w.(display); windows := None |} in
      if bool_decide (action = "save") then
        print MsgSavingAll;;
        save w wmsr state_file_path false;;
        mret 0%Z
      else
        print MsgRestoringAll;;
        restore w wmsr state_file_path false;;
        mret 0%Z
  end.

(** The exit status of the process: an exception nobody catches ends the
    interpreter with a traceback and status 1. *)
Definition exit_status (r : M Z) : Z :=
  match outcome r with
  | Ok code => code
  | Raise _ => 1%Z
  end.
End persister.

(** ** Vocabulary of the statements *)

(** The state tags a state-change request carries: [data1] and [data2],
    without the filler [0]. *)
Definition tag_of (d : json) : gset string :=
  match d with
  | JStr s => {[s]}
  | _ => ∅
  end.

Definition request_tags (d1 d2 : json) : gset string := tag_of d1 ∪ tag_of d2.

(** The two data words of the request [set_states] sends for the set [s],
    and the events of one optional state change of [move]. *)
Definition request_data `{SetOrder} (s : gset string) (i : nat) : json :=
  default (JNum 0) (states_list s !! i).

Definition state_change `{SetOrder} (self : WmWindow) (action : Z)
    (line : Z → list string → msg) (s : gset string) : list event :=
  if bool_decide (0 < size s) then
    [Print (line self.(id) (list_of_set s));
     SetWmState self.(win) action (request_data s 0) (request_data s 1)]
  else [].

(** [del d[k]]. *)
Definition dict_del {V} (d : list (string * V)) (k : string)
  : list (string * V) :=
  List.filter (λ kv, negb (bool_decide (kv.1 = k))) d.

(** [entry['id'] = v] for an entry that is an object, and the same on
    every entry of a document, with a value chosen per key. *)
Definition set_id (v : json) (entry : json) : json :=
  match entry with
  | JObj fields => JObj (dict_set fields "id" v)
  | _ => entry
  end.

Definition with_ids (f : string → json) (kvs : list (string * json))
  : list (string * json) :=
  (λ kv, (kv.1, set_id (f kv.1) kv.2)) <$> kvs.

(** The test of [get_windows] on a snapshot. *)
Definition keeps (filter : bool) (w : WmWindow) : bool :=
  negb filter
  || (bool_decide (length w.(type) = 1)
      && bool_decide (w.(type) !! 0 = Some NORMAL)).

(** The entry of a snapshot in the state file, with the states in the
    order [states]. *)
Definition entry_of (w : WmWindow) (states : list string) : json :=
  JObj [("id", JNum w.(id));
        ("type", JArr (JStr <$> w.(type)));
        ("state", JArr (JStr <$> states));
        ("geometry", JArr (JNum <$> w.(geometry)));
        ("name", JStr w.(name))].

(** What [restore] does with a persisted entry, once it has found the
    live window [cur_win] for it. *)
Definition apply_entry `{SetOrder} (cur_win : WmWindow) (entry : json)
  : M unit :=
  geom ← lift (py_getitem entry (JStr "geometry"));
  st ← lift (py_getitem entry (JStr "state"));
  target ← lift (py_set st);
  move cur_win geom (Some target).

Definition is_add_state (e : event) : bool :=
  match e with
  | SetWmState _ action _ _ => bool_decide (action = ACTION_ADD)
  | _ => false
  end.

Definition is_usage (e : event) : bool :=
  match e with
  | Print (MsgUsage _) => true
  | _ => false
  end.

Definition no_usage {A} (m : M A) : Prop :=
  Forall (λ e, is_usage e = false) (trace m).

(** A command line in error, [args] being [sys.argv] without the program
    name: no argument at all, more than two, or a first argument that is
    neither [save] nor [restore]. *)
Definition usage_error (args : list string) : bool :=
  bool_decide (length args = 0)
  || bool_decide (2 < length args)
  || match args with
     | [] => true
     | verb :: _ =>
         negb (bool_decide (verb = "save") || bool_decide (verb = "restore"))
     end.

(** A live window and a server to run the model on: the editor, window
    123 in its frame 1123, maximized vertically at (100, 100), and a
    dialog, window 124. *)
Definition editor : WmWindow :=
  {| win := 123; id := 123; type := [NORMAL];
     state := {[MAXIMIZED_VERT]}; geometry := [100; 100; 800; 600]%Z;
     name := "Editor" |}.

Definition desk : EWMH :=
  {| root := 1;
     getClientList := Ok [123; 124]%Z;
     getWmWindowType := λ w,
       if bool_decide (w = 123%Z) then Ok [NORMAL]
       else Ok ["_NET_WM_WINDOW_TYPE_DIALOG"];
     getWmState := λ w,
       if bool_decide (w = 123%Z) then Ok [MAXIMIZED_VERT] else Ok [];
     getWmName := λ w,
       if bool_decide (w = 123%Z) then Ok (Some "Editor")
       else Ok (Some "Open file");
     win_get_geometry := λ w,
       if bool_decide (w < 1000)%Z
       then Ok {| geo_x := 5; geo_y := 25; geo_width := 800; geo_height := 600 |}
       else Ok {| geo_x := 100; geo_y := 100;
                  geo_width := 810; geo_height := 630 |};
     query_tree_parent := λ w,
       if bool_decide (w < 1000)%Z then Ok (w + 1000)%Z else Ok 1%Z;
     tree_depth := 4 |}.

(** The same server, where the dialog vanishes while it is read. *)
Definition desk_vanishing : EWMH :=
  {| root := desk.(root);
     getClientList := desk.(getClientList);
     getWmWindowType := desk.(getWmWindowType);
     getWmState := λ w,
       if bool_decide (w = 124%Z) then Raise BadWindow
       else desk.(getWmState) w;
     getWmName := desk.(getWmName);
     win_get_geometry := desk.(win_get_geometry);
     query_tree_parent := desk.(query_tree_parent);
     tree_depth := desk.(tree_depth) |}.

(** State files: the editor at the origin; an entry without [geometry];
    the editor and a window 999 that does not exist. *)
Definition editor_entry : json :=
  JObj [("id", JNum 123); ("type", JArr [JStr NORMAL]); ("state", JArr []);
        ("name", JStr "Editor");
        ("geometry", JArr [JNum 0; JNum 0; JNum 800; JNum 600])].

Definition doc_editor : json := JObj [("123", editor_entry)].

Definition doc_no_geometry : json := JObj [("123", JObj [("id", JNum 123)])].

Definition doc_drift : json :=
  JObj [("999", editor_entry); ("123", editor_entry)].

Definition world_with (ew : EWMH) (doc : json) : World :=
  {| HOME := "/home/user"; display := ew; file := λ _, Document doc;
     writable := λ _, true; recursion_limit := 100 |}.

(** A fresh persister on the server [ew], as [__main__] creates it. *)
Definition fresh (ew : EWMH) : WmWindowPersister :=
  {| ew := ew; windows := None |}.

(** ** Vocabulary of the further properties *)

(** Every event of a run satisfies [Q]. *)
Definition all_events {A} (Q : event → Prop) (m : M A) : Prop :=
  Forall Q (trace m).

(** The window a request is sent for. *)
Definition event_window (e : event) : option Z :=
  match e with
  | SetWmState win _ _ _ | SetMoveResizeWindow win _ _ _ _ => Some win
  | _ => None
  end.

Definition is_write (e : event) : bool :=
  match e with
  | WriteFile _ _ => true
  | _ => false
  end.

Definition is_move_resize (e : event) : bool :=
  match e with
  | SetMoveResizeWindow _ _ _ _ _ => true
  | _ => false
  end.

(** A state-change request names maximize tags only. *)
Definition only_maximize (e : event) : Prop :=
  match e with
  | SetWmState _ _ d1 d2 => request_tags d1 d2 ⊆ MAXIMIZED_STATES
  | _ => True
  end.

(** The ancestor of [w] that is [n] levels up in the window tree. *)
Fixpoint ancestor (ew : EWMH) (n : nat) (w : Z) : result Z :=
  match n with
  | O => Ok w
  | S n' =>
      match ew.(query_tree_parent) w with
      | Ok p => ancestor ew n' p
      | Raise e => Raise e
      end
  end.

(** Two persisted entries give the same [geometry] and [state]. *)
Definition fields_agree (e1 e2 : json) : Prop :=
  py_getitem e1 (JStr "geometry") = py_getitem e2 (JStr "geometry")
  ∧ py_getitem e1 (JStr "state") = py_getitem e2 (JStr "state").

(** A request of [restore] is for a live window that a key of the loaded
    document names, and a state change names maximize tags only. *)
Definition request_for (live : list (Z * WmWindow)) (loaded : json)
    (e : event) : Prop :=
  match event_window e with
  | None => True
  | Some target =>
      only_maximize e
      ∧ ∃ ids id iid cur_win,
          py_iter loaded = Ok ids ∧ id ∈ ids ∧ py_int id = Ok iid
          ∧ dict_get live iid = Some cur_win ∧ cur_win.(win) = target
  end.

(** The sample server, where the dialog has no [_NET_WM_NAME]. *)
Definition desk_unnamed : EWMH :=
  {| root := desk.(root);
     getClientList := desk.(getClientList);
     getWmWindowType := desk.(getWmWindowType);
     getWmState := desk.(getWmState);
     getWmName := λ w,
       if bool_decide (w = 124%Z) then Ok None else desk.(getWmName) w;
     win_get_geometry := desk.(win_get_geometry);
     query_tree_parent := desk.(query_tree_parent);
     tree_depth := desk.(tree_depth) |}.

(** * Properties *)

(** ** The monad *)

Lemma M_eta {A} (m : M A) : Run (trace m) (outcome m) = m.
Proof. by destruct m. Qed.

Lemma bind_Ok {A B} (f : A → M B) (t : list event) (a : A) :
  Run t (Ok a) ≫= f = Run (t ++ trace (f a)) (outcome (f a)).
Proof. reflexivity. Qed.

Lemma bind_Raise {A B} (f : A → M B) (t : list event) (e : exn) :
  Run t (Raise e) ≫= f = Run t (Raise e).
Proof. reflexivity. Qed.

Lemma bind_lift_Ok {A B} (f : A → M B) (a : A) : lift (Ok a) ≫= f = f a.
Proof. unfold lift. rewrite bind_Ok. apply M_eta. Qed.

Lemma bind_lift_Raise {A B} (f : A → M B) (e : exn) :
  lift (Raise e) ≫= f = Run [] (Raise e).
Proof. reflexivity. Qed.

Lemma bind_ret {A B} (f : A → M B) (a : A) : mret a ≫= f = f a.
Proof. apply bind_lift_Ok. Qed.

Lemma bind_emit {B} (f : unit → M B) (e : event) :
  emit e ≫= f = Run (e :: trace (f ())) (outcome (f ())).
Proof. reflexivity. Qed.

Lemma bind_print {B} (f : unit → M B) (m : msg) :
  print m ≫= f = Run (Print m :: trace (f ())) (outcome (f ())).
Proof. reflexivity. Qed.

Lemma trace_bind {A B} (m : M A) (f : A → M B) :
  trace (m ≫= f)
  = match outcome m with
    | Ok a => trace m ++ trace (f a)
    | Raise _ => trace m
    end.
Proof. destruct m as [t [a|e]]; reflexivity. Qed.

Lemma outcome_bind {A B} (m : M A) (f : A → M B) :
  outcome (m ≫= f)
  = match outcome m with
    | Ok a => outcome (f a)
    | Raise e => Raise e
    end.
Proof. destruct m as [t [a|e]]; reflexivity. Qed.

(** ** Moving a window *)

Section move_facts.
Context `{SetOrder}.

Lemma MAXIMIZED_STATES_size : size MAXIMIZED_STATES = 2.
Proof. reflexivity. Qed.

Lemma list_of_set_length (s : gset string) : length (list_of_set s) = size s.
Proof. by rewrite (list_of_set_perm s). Qed.

Lemma list_of_set_to_set (s : gset string) : list_to_set (list_of_set s) = s.
Proof.
  apply set_eq. intros x.
  rewrite elem_of_list_to_set, (list_of_set_perm s). apply elem_of_elements.
Qed.

(** A non-empty set of maximize tags enumerates as one or two tags. *)
Lemma list_of_maximize_set (s : gset string) :
  s ⊆ MAXIMIZED_STATES → 0 < size s →
  (∃ a, list_of_set s = [a]) ∨ (∃ a b, list_of_set s = [a; b]).
Proof.
  intros Hsub Hpos.
  pose proof (subseteq_size _ _ Hsub) as Hle.
  rewrite MAXIMIZED_STATES_size, <- list_of_set_length in Hle.
  rewrite <- list_of_set_length in Hpos.
  destruct (list_of_set s) as [|a [|b [|c l]]]; simpl in *; try lia; eauto.
Qed.

(** A state-change request for a non-empty set of maximize tags is one
    call, and it carries exactly these tags. *)
Lemma set_states_run (self : WmWindow) (action : Z) (s : gset string) :
  s ⊆ MAXIMIZED_STATES → 0 < size s →
  set_states self action s
  = Run [SetWmState self.(win) action (request_data s 0) (request_data s 1)]
        (Ok ())
  ∧ request_tags (request_data s 0) (request_data s 1) = s.
Proof.
  intros Hsub Hpos.
  pose proof (list_of_set_to_set s) as Hs.
  unfold set_states, request_data, states_list.
  destruct (list_of_maximize_set s Hsub Hpos) as [[a Hl]|(a & b & Hl)];
    rewrite Hl in *; simpl in Hs; (split; [reflexivity|]);
    unfold request_tags; simpl; rewrite <- Hs;
    by rewrite ?(right_id_L ∅ (∪)).
Qed.

Lemma maximize_subset (s : gset string) : s ∩ MAXIMIZED_STATES ⊆ MAXIMIZED_STATES.
Proof. apply intersection_subseteq_r. Qed.

Lemma state_change_run (self : WmWindow) (action : Z)
    (line : Z → list string → msg) (s : gset string) :
  s ⊆ MAXIMIZED_STATES →
  (if bool_decide (0 < size s) then
     print (line self.(id) (list_of_set s));; set_states self action s
   else mret ())
  = Run (state_change self action line s) (Ok ()).
Proof.
  intros Hsub. unfold state_change. case_bool_decide as Hpos; [|reflexivity].
  destruct (set_states_run self action s Hsub Hpos) as [-> _]. reflexivity.
Qed.

(** C2.  When the target geometry equals the live geometry, [move] only
    prints that the geometry is the same and returns: it issues no
    move/resize and no state-change request, whatever the target state
    (given or not) and the live state are.  So applying a persisted entry
    with that geometry to the window issues no adapter call, whatever the
    [state] field of the entry holds. *)
Theorem move_same_geometry_noop (self : WmWindow) (geom : json) :
  py_eq_list geom self.(geometry) = true →
  (∀ st, move self geom st = Run [Print (MsgSameGeometry self.(id))] (Ok ())
         ∧ adapter_calls (trace (move self geom st)) = [])
  ∧ (∀ entry, py_getitem entry (JStr "geometry") = Ok geom →
              adapter_calls (trace (apply_entry self entry)) = []).
Proof.
  intros Heq.
  assert (Hmove : ∀ st, move self geom st
                        = Run [Print (MsgSameGeometry self.(id))] (Ok ())).
  { intros st. unfold move. by rewrite Heq. }
  split.
  - intros st. by rewrite Hmove.
  - intros entry Hgeo. unfold apply_entry. rewrite Hgeo, bind_lift_Ok.
    destruct (py_getitem entry (JStr "state")) as [st|e];
      [rewrite bind_lift_Ok|reflexivity].
    destruct (py_set st) as [target|e]; [rewrite bind_lift_Ok|reflexivity].
    by rewrite Hmove.
Qed.

(** The run of [move] when the geometries differ and the target geometry
    has four components. *)
Lemma move_differs (self : WmWindow) (geom : json) (st : option (gset string))
    (x y w h : json) :
  py_eq_list geom self.(geometry) = false →
  unpack4 geom = Ok (x, y, w, h) →
  move self geom st
  = Run (state_change self ACTION_REMOVE MsgRemoving
           (self.(state) ∩ MAXIMIZED_STATES)
         ++ [Print (MsgMoving self.(id) x y w h);
             SetMoveResizeWindow self.(win) x y w h]
         ++ state_change self ACTION_ADD MsgRestoring
              match st with
              | Some target => target ∩ MAXIMIZED_STATES
              | None => self.(state) ∩ MAXIMIZED_STATES
              end)
        (Ok ()).
Proof.
  intros Hne Hun. unfold move. rewrite Hne, Hun.
  rewrite (state_change_run self ACTION_REMOVE MsgRemoving)
    by apply maximize_subset.
  rewrite bind_Ok, bind_lift_Ok. cbn beta iota.
  rewrite bind_print, bind_emit.
  rewrite (state_change_run self ACTION_ADD MsgRestoring)
    by (destruct st; apply maximize_subset).
  reflexivity.
Qed.

Lemma adapter_calls_app (t1 t2 : list event) :
  adapter_calls (t1 ++ t2) = adapter_calls t1 ++ adapter_calls t2.
Proof. apply List.filter_app. Qed.

Lemma adapter_calls_state_change (self : WmWindow) (action : Z)
    (line : Z → list string → msg) (s : gset string) :
  adapter_calls (state_change self action line s)
  = if bool_decide (0 < size s)
    then [SetWmState self.(win) action (request_data s 0) (request_data s 1)]
    else [].
Proof. unfold state_change. by case_bool_decide. Qed.

(** C1.  For a live window with at least one maximize tag and a target
    geometry of four components [x, y, w, h] that differs from the live
    geometry, [move] with the target state [target] succeeds and its
    requests to the window manager are, in this order: one remove-state
    request carrying exactly the live maximize tags, one move/resize
    request to [x, y, w, h], and, if and only if [target] contains a
    maximize tag, one add-state request carrying exactly the maximize tags
    of [target]; there is no other request. *)
Theorem move_maximized_sequence (self : WmWindow) (geom : json)
    (target : gset string) (x y w h : json) :
  0 < size (self.(state) ∩ MAXIMIZED_STATES) →
  py_eq_list geom self.(geometry) = false →
  unpack4 geom = Ok (x, y, w, h) →
  ∃ r1 r2 a1 a2,
    request_tags r1 r2 = self.(state) ∩ MAXIMIZED_STATES
    ∧ (0 < size (target ∩ MAXIMIZED_STATES) →
       request_tags a1 a2 = target ∩ MAXIMIZED_STATES)
    ∧ outcome (move self geom (Some target)) = Ok ()
    ∧ adapter_calls (trace (move self geom (Some target)))
      = [SetWmState self.(win) ACTION_REMOVE r1 r2;
         SetMoveResizeWindow self.(win) x y w h]
        ++ (if bool_decide (0 < size (target ∩ MAXIMIZED_STATES))
            then [SetWmState self.(win) ACTION_ADD a1 a2]
            else []).
Proof.
  intros Hlive Hne Hun.
  set (live := self.(state) ∩ MAXIMIZED_STATES) in *.
  set (after := target ∩ MAXIMIZED_STATES).
  exists (request_data live 0), (request_data live 1),
         (request_data after 0), (request_data after 1).
  split; [apply (set_states_run self ACTION_REMOVE), Hlive;
          apply maximize_subset|].
  split; [intros Hafter; apply (set_states_run self ACTION_ADD), Hafter;
          apply maximize_subset|].
  rewrite (move_differs self geom (Some target) x y w h Hne Hun).
  split; [reflexivity|]. cbn [trace].
  rewrite !adapter_calls_app, !adapter_calls_state_change.
  fold live after. rewrite bool_decide_eq_true_2 by exact Hlive.
  reflexivity.
Qed.

(** C3, as the code has it.  When [move] is called without a target
    state, the tags restored after the move default to the live window's
    own maximize tags: for a target geometry of four components that
    differs from the live geometry, the requests are the move/resize alone
    when the live window has no maximize tag, and otherwise a remove-state
    request, the move/resize, and an add-state request carrying the very
    tags that were removed. *)
Theorem move_without_state_restores_live (self : WmWindow) (geom : json)
    (x y w h : json) :
  py_eq_list geom self.(geometry) = false →
  unpack4 geom = Ok (x, y, w, h) →
  ∃ d1 d2,
    (0 < size (self.(state) ∩ MAXIMIZED_STATES) →
     request_tags d1 d2 = self.(state) ∩ MAXIMIZED_STATES)
    ∧ outcome (move self geom None) = Ok ()
    ∧ adapter_calls (trace (move self geom None))
      = if bool_decide (0 < size (self.(state) ∩ MAXIMIZED_STATES))
        then [SetWmState self.(win) ACTION_REMOVE d1 d2;
              SetMoveResizeWindow self.(win) x y w h;
              SetWmState self.(win) ACTION_ADD d1 d2]
        else [SetMoveResizeWindow self.(win) x y w h].
Proof.
  intros Hne Hun.
  set (live := self.(state) ∩ MAXIMIZED_STATES) in *.
  exists (request_data live 0), (request_data live 1).
  split; [intros Hlive; apply (set_states_run self ACTION_REMOVE), Hlive;
          apply maximize_subset|].
  rewrite (move_differs self geom None x y w h Hne Hun).
  split; [reflexivity|]. cbn [trace].
  rewrite !adapter_calls_app, !adapter_calls_state_change.
  fold live. by case_bool_decide.
Qed.
End move_facts.

Lemma move_same_geometry_noop_witness :
  (∀ st,
     @move elements_order editor (JArr (JNum <$> [100; 100; 800; 600]%Z)) st
     = Run [Print (MsgSameGeometry 123)] (Ok ())
     ∧ adapter_calls
         (trace (@move elements_order editor
                   (JArr (JNum <$> [100; 100; 800; 600]%Z)) st)) = [])
  ∧ (∀ entry,
       py_getitem entry (JStr "geometry")
       = Ok (JArr (JNum <$> [100; 100; 800; 600]%Z)) →
       adapter_calls (trace (@apply_entry elements_order editor entry)) = []).
Proof.
  apply (@move_same_geometry_noop elements_order editor). reflexivity.
Defined.

Lemma move_maximized_sequence_witness :
  ∃ r1 r2 a1 a2,
    request_tags r1 r2 = editor.(state) ∩ MAXIMIZED_STATES
    ∧ (0 < size ({[MAXIMIZED_HORZ]} ∩ MAXIMIZED_STATES) →
       request_tags a1 a2 = {[MAXIMIZED_HORZ]} ∩ MAXIMIZED_STATES)
    ∧ outcome (@move elements_order editor
                 (JArr (JNum <$> [0; 0; 800; 600]%Z))
                 (Some {[MAXIMIZED_HORZ]})) = Ok ()
    ∧ adapter_calls
        (trace (@move elements_order editor
                  (JArr (JNum <$> [0; 0; 800; 600]%Z))
                  (Some {[MAXIMIZED_HORZ]})))
      = [SetWmState 123 ACTION_REMOVE r1 r2;
         SetMoveResizeWindow 123 (JNum 0) (JNum 0) (JNum 800) (JNum 600)]
        ++ (if bool_decide (0 < size ({[MAXIMIZED_HORZ]} ∩ MAXIMIZED_STATES))
            then [SetWmState 123 ACTION_ADD a1 a2]
            else []).
Proof.
  apply (@move_maximized_sequence elements_order editor
           (JArr (JNum <$> [0; 0; 800; 600]%Z)) {[MAXIMIZED_HORZ]}
           (JNum 0) (JNum 0) (JNum 800) (JNum 600)).
  - vm_compute. lia.
  - reflexivity.
  - reflexivity.
Defined.

Lemma move_without_state_restores_live_witness :
  ∃ d1 d2,
    (0 < size (editor.(state) ∩ MAXIMIZED_STATES) →
     request_tags d1 d2 = editor.(state) ∩ MAXIMIZED_STATES)
    ∧ outcome (@move elements_order editor
                 (JArr (JNum <$> [0; 0; 800; 600]%Z)) None) = Ok ()
    ∧ adapter_calls
        (trace (@move elements_order editor
                  (JArr (JNum <$> [0; 0; 800; 600]%Z)) None))
      = if bool_decide (0 < size (editor.(state) ∩ MAXIMIZED_STATES))
        then [SetWmState 123 ACTION_REMOVE d1 d2;
              SetMoveResizeWindow 123 (JNum 0) (JNum 0) (JNum 800) (JNum 600);
              SetWmState 123 ACTION_ADD d1 d2]
        else [SetMoveResizeWindow 123 (JNum 0) (JNum 0) (JNum 800) (JNum 600)].
Proof.
  apply (@move_without_state_restores_live elements_order editor
           (JArr (JNum <$> [0; 0; 800; 600]%Z))
           (JNum 0) (JNum 0) (JNum 800) (JNum 600)); reflexivity.
Defined.

(** C3 fails as stated: the editor is maximized vertically, the target
    geometry differs, no target state is given, and an add-state request
    follows the move/resize. *)
Lemma move_without_state_counterexample :
  py_eq_list (JArr (JNum <$> [0; 0; 800; 600]%Z)) editor.(geometry) = false
  ∧ adapter_calls
      (trace (@move elements_order editor
                (JArr (JNum <$> [0; 0; 800; 600]%Z)) None))
    = [SetWmState 123 ACTION_REMOVE (JStr MAXIMIZED_VERT) (JNum 0);
       SetMoveResizeWindow 123 (JNum 0) (JNum 0) (JNum 800) (JNum 600);
       SetWmState 123 ACTION_ADD (JStr MAXIMIZED_VERT) (JNum 0)]
  ∧ List.filter is_add_state
      (trace (@move elements_order editor
                (JArr (JNum <$> [0; 0; 800; 600]%Z)) None)) ≠ [].
Proof.
  split; [reflexivity|]. split; [vm_compute; reflexivity|].
  vm_compute. discriminate.
Qed.

(** ** Dictionaries *)

Section pydict_facts.
Context {K V : Type} `{EqDecision K}.
Implicit Types (d : list (K * V)) (k : K) (v : V).

Lemma dict_get_set d k v k' :
  dict_get (dict_set d k v) k' = if decide (k = k') then Some v else dict_get d k'.
Proof.
  induction d as [|[k0 v0] d IH]; simpl.
  - destruct (decide (k = k')); reflexivity.
  - destruct (decide (k0 = k)) as [->|Hne]; simpl.
    + destruct (decide (k = k')); reflexivity.
    + rewrite IH. destruct (decide (k0 = k')) as [->|]; [|reflexivity].
      by rewrite decide_False.
Qed.

Lemma dict_get_is_Some d k : k ∈ d.*1 ↔ is_Some (dict_get d k).
Proof.
  induction d as [|[k0 v0] d IH]; simpl.
  - split; [by intros ?%elem_of_nil|by intros [? ?]].
  - rewrite elem_of_cons, IH. destruct (decide (k0 = k)) as [->|Hne].
    + split; eauto.
    + split; [intros [?|?]; [congruence|done]|by right].
Qed.

Lemma dict_get_Some_elem d k v : dict_get d k = Some v → (k, v) ∈ d.
Proof.
  induction d as [|[k0 v0] d IH]; simpl; [done|].
  destruct (decide (k0 = k)) as [->|Hne].
  - intros [= ->]. left.
  - intros ?. right. by apply IH.
Qed.

End pydict_facts.

Lemma dict_get_del {V} (d : list (string * V)) (k k' : string) :
  k' ≠ k → dict_get (dict_del d k) k' = dict_get d k'.
Proof.
  intros Hne. induction d as [|[k0 v0] d IH]; simpl; [done|].
  case_bool_decide as Hk; simpl.
  - subst k0. by rewrite decide_False by done.
  - by rewrite IH.
Qed.

Lemma dict_del_keys {V} (d : list (string * V)) (k : string) :
  (dict_del d k).*1 = List.filter (λ k', negb (bool_decide (k' = k))) d.*1.
Proof.
  induction d as [|[k0 v0] d IH]; simpl; [done|].
  destruct (bool_decide (k0 = k)); simpl; [exact IH|f_equal; exact IH].
Qed.

(** ** Loops *)

Lemma bind_assoc {A B C} (m : M A) (f : A → M B) (g : B → M C) :
  (m ≫= f) ≫= g = m ≫= (λ a, f a ≫= g).
Proof.
  destruct m as [t [a|e]]; [|reflexivity].
  rewrite !bind_Ok. destruct (f a) as [t' [b|e']]; cbn [trace outcome].
  - rewrite !bind_Ok. cbn [trace outcome]. by rewrite app_assoc.
  - reflexivity.
Qed.

Lemma for_each_cons {A} (a : A) (l : list A) (body : A → M unit) :
  for_each (a :: l) body = (body a;; for_each l body).
Proof. reflexivity. Qed.

Lemma for_each_app {A} (l1 l2 : list A) (body : A → M unit) :
  for_each (l1 ++ l2) body = (for_each l1 body;; for_each l2 body).
Proof.
  induction l1 as [|a l1 IH].
  - symmetry. exact (bind_ret (λ _, for_each l2 body) ()).
  - rewrite <- app_comm_cons, !for_each_cons, IH. by rewrite bind_assoc.
Qed.

Lemma for_each_fmap {A B} (g : A → B) (l : list A) (body : B → M unit) :
  for_each (g <$> l) body = for_each l (body ∘ g).
Proof.
  induction l as [|a l IH]; [done|].
  rewrite fmap_cons, !for_each_cons, IH. done.
Qed.

Lemma for_each_ext {A} (l : list A) (body body' : A → M unit) :
  (∀ x, x ∈ l → body x = body' x) → for_each l body = for_each l body'.
Proof.
  induction l as [|a l IH]; intros Hext; [done|].
  rewrite !for_each_cons, Hext by left.
  rewrite IH; [done|]. intros x Hx. apply Hext. by right.
Qed.

(** Dropping iterations that succeed without calling the adapter changes
    neither the adapter calls nor the outcome of a loop. *)
Lemma for_each_skip {A} (l : list A) (keep : A → bool) (body body' : A → M unit) :
  (∀ x, x ∈ l → keep x = false →
        adapter_calls (trace (body x)) = [] ∧ outcome (body x) = Ok ()) →
  (∀ x, x ∈ l → keep x = true → body' x = body x) →
  adapter_calls (trace (for_each l body))
  = adapter_calls (trace (for_each (List.filter keep l) body'))
  ∧ outcome (for_each l body)
    = outcome (for_each (List.filter keep l) body').
Proof.
  induction l as [|a l IH]; intros Hskip Hkeep; [done|].
  destruct IH as [IHt IHo].
  { intros x Hx. apply Hskip. by right. }
  { intros x Hx. apply Hkeep. by right. }
  rewrite for_each_cons. simpl List.filter.
  rewrite trace_bind, outcome_bind.
  destruct (keep a) eqn:Ha.
  - rewrite for_each_cons, trace_bind, outcome_bind.
    rewrite (Hkeep a) by (done || left).
    destruct (outcome (body a)); [|done].
    by rewrite !adapter_calls_app, IHt, IHo.
  - destruct (Hskip a) as [Ht Ho]; [left|done|].
    rewrite Ho, adapter_calls_app, Ht. done.
Qed.

(** A loop that ends normally has run every iteration. *)
Lemma for_each_Ok_trace {A} (l : list A) (body : A → M unit) (x : A) (e : event) :
  outcome (for_each l body) = Ok () → x ∈ l → e ∈ trace (body x) →
  e ∈ trace (for_each l body).
Proof.
  induction l as [|a l IH]; intros Hok Hx He; [by apply elem_of_nil in Hx|].
  rewrite for_each_cons, trace_bind. rewrite for_each_cons, outcome_bind in Hok.
  destruct (outcome (body a)) eqn:Ha; [|done].
  apply elem_of_app. apply elem_of_cons in Hx as [->|Hx]; [by left|].
  right. by apply IH.
Qed.

(** A loop stops at the first iteration that raises. *)
Lemma for_each_raise {A} (pre post : list A) (x : A) (body : A → M unit)
    (t : list event) (e : exn) :
  outcome (for_each pre body) = Ok () →
  body x = Run t (Raise e) →
  for_each (pre ++ x :: post) body
  = Run (trace (for_each pre body) ++ t) (Raise e).
Proof.
  intros Hpre Hx. rewrite for_each_app, for_each_cons, Hx.
  destruct (for_each pre body) as [t0 [[]|e0]]; [|done]. reflexivity.
Qed.

(** ** Restoring *)

Section restore_facts.
Context `{SetOrder}.

(** One turn of the loop for a key [k] of a state file that is an object:
    the key is parsed to an integer, and that integer alone selects the
    live window. *)
Lemma restore_entry_key (live : list (Z * WmWindow)) (kvs : list (string * json))
    (k : string) :
  restore_entry live (JObj kvs) (JStr k)
  = match dict_get kvs k with
    | None => Run [] (Raise KeyError)
    | Some entry =>
        match int_of_string k with
        | None => Run [] (Raise ValueError)
        | Some iid =>
            match dict_get live iid with
            | None => Run [Print (MsgNotFound (JStr k))] (Ok ())
            | Some cur_win => apply_entry cur_win entry
            end
        end
    end.
Proof.
  unfold restore_entry, py_getitem. destruct (dict_get kvs k) as [entry|];
    [rewrite bind_lift_Ok|reflexivity].
  unfold py_int. destruct (int_of_string k) as [iid|];
    [rewrite bind_lift_Ok|reflexivity].
  destruct (dict_get live iid); reflexivity.
Qed.

Lemma restore_loop_object (live : list (Z * WmWindow)) (kvs : list (string * json)) :
  restore_loop live (JObj kvs)
  = for_each kvs.*1 (λ k, restore_entry live (JObj kvs) (JStr k)).
Proof.
  unfold restore_loop, py_iter. rewrite bind_lift_Ok. apply for_each_fmap.
Qed.

(** [restore] on a state file that decodes to an object. *)
Lemma restore_object (w : World) (self : WmWindowPersister) (filename : string)
    (reload : bool) (kvs : list (string * json)) (live : list (Z * WmWindow)) :
  w.(file) filename = Document (JObj kvs) →
  current_windows self reload = Ok live →
  restore w self filename reload
  = (print (MsgLoaded (length kvs));;
     restore_loop live (JObj kvs);;
     emit Flush;;
     mret ({| ew := self.(ew); windows := Some live |}, None)).
Proof.
  intros Hfile Hlive. unfold restore, read_data. rewrite Hfile, bind_ret.
  unfold py_len. rewrite bind_lift_Ok, Hlive.
  f_equal.
Qed.

(** The tail of [restore] after the loop: the flush and the return. *)
Lemma restore_trace (w : World) (self : WmWindowPersister) (filename : string)
    (reload : bool) (kvs : list (string * json)) (live : list (Z * WmWindow)) :
  w.(file) filename = Document (JObj kvs) →
  current_windows self reload = Ok live →
  trace (restore w self filename reload)
  = Print (MsgLoaded (length kvs))
    :: trace (restore_loop live (JObj kvs))
    ++ match outcome (restore_loop live (JObj kvs)) with
       | Ok _ => [Flush]
       | Raise _ => []
       end
  ∧ outcome (restore w self filename reload)
    = match outcome (restore_loop live (JObj kvs)) with
      | Ok _ => Ok ({| ew := self.(ew); windows := Some live |}, None)
      | Raise e => Raise e
      end.
Proof.
  intros Hfile Hlive. rewrite (restore_object w self filename reload kvs live)
    by done.
  rewrite bind_print. cbn [trace outcome].
  rewrite trace_bind, outcome_bind.
  destruct (outcome (restore_loop live (JObj kvs))); [|by rewrite app_nil_r].
  done.
Qed.

(** C4.  Let the state file hold an entry under a key [k] that parses to
    an identity [iid] absent from the live set.  The turn of the loop for
    [k] prints "[k]: not found, skipping", calls nothing and raises
    nothing; and [restore] issues the same adapter calls, in the same
    order, and has the same outcome as on the file without that entry
    (world [w']).  When [restore] returns, the skip message is in its
    output. *)
Theorem restore_skips_missing (w w' : World) (self : WmWindowPersister)
    (filename : string) (reload : bool) (kvs : list (string * json))
    (live : list (Z * WmWindow)) (k : string) (iid : Z) :
  w.(file) filename = Document (JObj kvs) →
  w'.(file) filename = Document (JObj (dict_del kvs k)) →
  current_windows self reload = Ok live →
  k ∈ kvs.*1 →
  int_of_string k = Some iid →
  dict_get live iid = None →
  restore_entry live (JObj kvs) (JStr k)
  = Run [Print (MsgNotFound (JStr k))] (Ok ())
  ∧ adapter_calls (trace (restore w self filename reload))
    = adapter_calls (trace (restore w' self filename reload))
  ∧ outcome (restore w self filename reload)
    = outcome (restore w' self filename reload)
  ∧ (∀ v, outcome (restore w self filename reload) = Ok v →
          Print (MsgNotFound (JStr k)) ∈ trace (restore w self filename reload)).
Proof.
  intros Hfile Hfile' Hlive Hk Hint Hmiss.
  assert (Hskip : restore_entry live (JObj kvs) (JStr k)
                  = Run [Print (MsgNotFound (JStr k))] (Ok ())).
  { rewrite restore_entry_key, Hint, Hmiss.
    apply dict_get_is_Some in Hk as [entry ->]. done. }
  split; [exact Hskip|].
  destruct (restore_trace w self filename reload kvs live Hfile Hlive)
    as [Ht Ho].
  destruct (restore_trace w' self filename reload _ live Hfile' Hlive)
    as [Ht' Ho'].
  destruct (for_each_skip kvs.*1 (λ k', negb (bool_decide (k' = k)))
              (λ k', restore_entry live (JObj kvs) (JStr k'))
              (λ k', restore_entry live (JObj (dict_del kvs k)) (JStr k')))
    as [Hcalls Hout].
  { intros x _ Hx. apply negb_false_iff, bool_decide_eq_true in Hx as ->.
    by rewrite Hskip. }
  { intros x _ Hx. apply negb_true_iff, bool_decide_eq_false in Hx.
    by rewrite !restore_entry_key, dict_get_del. }
  rewrite <- dict_del_keys, <- !restore_loop_object in Hcalls, Hout.
  rewrite Ht, Ht', Ho, Ho'.
  split; [|split].
  - change (adapter_calls (?e :: ?t)) with (adapter_calls ([e] ++ t)).
    rewrite !adapter_calls_app, Hcalls, Hout. done.
  - by rewrite Hout.
  - intros v Hv. right. apply elem_of_app. left.
    destruct (outcome (restore_loop live (JObj kvs))) as [[]|] eqn:Hloop;
      [|done].
    rewrite restore_loop_object in Hloop |- *.
    apply (for_each_Ok_trace _ _ k); [done|done|].
    rewrite Hskip. left.
Qed.

(** C7, as the code has it.  When the state file is an object whose entry
    under [k], for a live window, is an object without a [geometry]
    field, [restore] reports nothing: the missing field raises a
    [KeyError] that is not caught and ends [restore] there.  The run
    consists of the "Loaded" line and of what the entries before [k] did;
    nothing is issued for the entry itself or for the entries after it,
    and the final flush is not reached. *)
Theorem restore_missing_geometry_raises (w : World) (self : WmWindowPersister)
    (filename : string) (reload : bool) (kvs : list (string * json))
    (live : list (Z * WmWindow)) (pre post : list string) (k : string)
    (fields : list (string * json)) (iid : Z) (cur_win : WmWindow) :
  w.(file) filename = Document (JObj kvs) →
  current_windows self reload = Ok live →
  kvs.*1 = pre ++ k :: post →
  dict_get kvs k = Some (JObj fields) →
  dict_get fields "geometry" = None →
  int_of_string k = Some iid →
  dict_get live iid = Some cur_win →
  outcome (for_each pre (λ k', restore_entry live (JObj kvs) (JStr k'))) = Ok () →
  restore_entry live (JObj kvs) (JStr k) = Run [] (Raise KeyError)
  ∧ restore w self filename reload
    = Run (Print (MsgLoaded (length kvs))
           :: trace (for_each pre
                       (λ k', restore_entry live (JObj kvs) (JStr k'))))
          (Raise KeyError).
Proof.
  intros Hfile Hlive Hkeys Hk Hgeo Hint Hcur Hpre.
  assert (Hentry : restore_entry live (JObj kvs) (JStr k) = Run [] (Raise KeyError)).
  { rewrite restore_entry_key, Hk, Hint, Hcur.
    unfold apply_entry, py_getitem. by rewrite Hgeo. }
  split; [exact Hentry|].
  rewrite (restore_object w self filename reload kvs live) by done.
  rewrite restore_loop_object, Hkeys.
  rewrite (for_each_raise pre post k _ [] KeyError Hpre Hentry).
  by rewrite app_nil_r.
Qed.

Lemma with_ids_keys (f : string → json) (kvs : list (string * json)) :
  (with_ids f kvs).*1 = kvs.*1.
Proof.
  unfold with_ids. rewrite <- list_fmap_compose. by apply list_fmap_ext.
Qed.

Lemma dict_get_with_ids (f : string → json) (kvs : list (string * json))
    (k : string) :
  dict_get (with_ids f kvs) k = set_id (f k) <$> dict_get kvs k.
Proof.
  induction kvs as [|[k0 e0] kvs IH]; [done|].
  cbn. destruct (decide (k0 = k)) as [->|]; [done|apply IH].
Qed.

(** Setting the [id] field of an entry does not change what is applied. *)
Lemma apply_entry_set_id (cur_win : WmWindow) (v entry : json) :
  apply_entry cur_win (set_id v entry) = apply_entry cur_win entry.
Proof.
  destruct entry as [| | | | |fields]; try reflexivity.
  unfold apply_entry, set_id, py_getitem.
  by rewrite !dict_get_set, !decide_False by done.
Qed.

Lemma restore_entry_with_ids (f : string → json) (live : list (Z * WmWindow))
    (kvs : list (string * json)) (k : string) :
  restore_entry live (JObj (with_ids f kvs)) (JStr k)
  = restore_entry live (JObj kvs) (JStr k).
Proof.
  rewrite !restore_entry_key, dict_get_with_ids.
  destruct (dict_get kvs k) as [entry|]; [|done]. cbn.
  destruct (int_of_string k) as [iid|]; [|done].
  destruct (dict_get live iid); [|done]. apply apply_entry_set_id.
Qed.

(** C10.  [restore] finds the live window for a persisted entry from the
    key alone: the key is parsed to an integer and looked up in the live
    set, and the entry's geometry and state are applied to the window
    found.  The [id] field inside the entry is never read: whatever
    values [f] puts into the [id] fields of a state file, an entry whose
    key names a live window is applied to that window, and the whole of
    [restore] runs exactly as on the original file. *)
Theorem restore_matches_by_key (w w' : World) (self : WmWindowPersister)
    (filename : string) (reload : bool) (kvs : list (string * json))
    (f : string → json) :
  w.(file) filename = Document (JObj kvs) →
  w'.(file) filename = Document (JObj (with_ids f kvs)) →
  (∀ live k entry iid cur_win,
     dict_get kvs k = Some entry →
     int_of_string k = Some iid →
     dict_get live iid = Some cur_win →
     restore_entry live (JObj (with_ids f kvs)) (JStr k)
     = apply_entry cur_win entry)
  ∧ restore w' self filename reload = restore w self filename reload.
Proof.
  intros Hfile Hfile'. split.
  - intros live k entry iid cur_win Hk Hint Hcur.
    by rewrite restore_entry_with_ids, restore_entry_key, Hk, Hint, Hcur.
  - unfold restore, read_data. rewrite Hfile, Hfile', !bind_ret.
    unfold py_len, with_ids. rewrite length_fmap. fold (with_ids f kvs).
    rewrite !bind_lift_Ok. f_equal.
    destruct (current_windows self reload) as [live|e]; [|done].
    rewrite !bind_lift_Ok.
    rewrite !restore_loop_object, with_ids_keys.
    rewrite (for_each_ext _ _ (λ k, restore_entry live (JObj kvs) (JStr k)));
      [done|].
    intros k _. apply restore_entry_with_ids.
Qed.
End restore_facts.

Lemma restore_skips_missing_witness :
  @restore_entry elements_order [(123%Z, editor)] doc_drift (JStr "999")
  = Run [Print (MsgNotFound (JStr "999"))] (Ok ())
  ∧ adapter_calls
      (trace (@restore elements_order (world_with desk doc_drift) (fresh desk)
                "state.json" false))
    = adapter_calls
        (trace (@restore elements_order (world_with desk doc_editor)
                  (fresh desk) "state.json" false))
  ∧ outcome (@restore elements_order (world_with desk doc_drift) (fresh desk)
               "state.json" false)
    = outcome (@restore elements_order (world_with desk doc_editor)
                 (fresh desk) "state.json" false)
  ∧ (∀ v, outcome (@restore elements_order (world_with desk doc_drift)
                     (fresh desk) "state.json" false) = Ok v →
          Print (MsgNotFound (JStr "999"))
          ∈ trace (@restore elements_order (world_with desk doc_drift)
                     (fresh desk) "state.json" false)).
Proof.
  apply (@restore_skips_missing elements_order
           (world_with desk doc_drift) (world_with desk doc_editor)
           (fresh desk) "state.json" false
           [("999", editor_entry); ("123", editor_entry)]
           [(123%Z, editor)] "999" 999%Z).
  - reflexivity.
  - reflexivity.
  - vm_compute. reflexivity.
  - left.
  - reflexivity.
  - reflexivity.
Defined.

Lemma restore_missing_geometry_raises_witness :
  @restore_entry elements_order [(123%Z, editor)] doc_no_geometry (JStr "123")
  = Run [] (Raise KeyError)
  ∧ @restore elements_order (world_with desk doc_no_geometry) (fresh desk)
      "state.json" false
    = Run (Print (MsgLoaded (length [("123", JObj [("id", JNum 123)])]))
           :: trace (for_each []
                       (λ k', @restore_entry elements_order [(123%Z, editor)]
                                doc_no_geometry (JStr k'))))
          (Raise KeyError).
Proof.
  apply (@restore_missing_geometry_raises elements_order
           (world_with desk doc_no_geometry) (fresh desk) "state.json" false
           [("123", JObj [("id", JNum 123)])] [(123%Z, editor)]
           [] [] "123" [("id", JNum 123)] 123%Z editor).
  - reflexivity.
  - vm_compute. reflexivity.
  - reflexivity.
  - reflexivity.
  - reflexivity.
  - reflexivity.
  - reflexivity.
  - reflexivity.
Defined.

(** C7 fails as stated: on the file [{"123": {"id": 123}}], with window
    123 live, [restore] prints no error line; it ends with a [KeyError]
    that reaches the top of the script. *)
Lemma restore_missing_geometry_counterexample :
  @restore elements_order (world_with desk doc_no_geometry) (fresh desk)
    "state.json" false
  = Run [Print (MsgLoaded 1)] (Raise KeyError)
  ∧ @main elements_order (world_with desk doc_no_geometry)
      ["wmsr.py"; "restore"; "state.json"]
    = Run [Print MsgRestoringAll; Print (MsgLoaded 1)] (Raise KeyError).
Proof. split; vm_compute; reflexivity. Qed.

Lemma restore_matches_by_key_witness :
  (∀ live k entry iid cur_win,
     dict_get [("123", editor_entry)] k = Some entry →
     int_of_string k = Some iid →
     dict_get live iid = Some cur_win →
     @restore_entry elements_order live
       (JObj (with_ids (λ _, JNum 7) [("123", editor_entry)])) (JStr k)
     = @apply_entry elements_order cur_win entry)
  ∧ @restore elements_order
      (world_with desk (JObj (with_ids (λ _, JNum 7) [("123", editor_entry)])))
      (fresh desk) "state.json" false
    = @restore elements_order (world_with desk doc_editor) (fresh desk)
        "state.json" false.
Proof.
  apply (@restore_matches_by_key elements_order
           (world_with desk doc_editor)
           (world_with desk (JObj (with_ids (λ _, JNum 7) [("123", editor_entry)])))
           (fresh desk) "state.json" false [("123", editor_entry)]
           (λ _, JNum 7)).
  - reflexivity.
  - reflexivity.
Defined.

(** The entry of the editor with the inner [id] 7 is applied to window
    123 all the same. *)
Example restore_inner_id_disagrees :
  @restore elements_order
    (world_with desk (JObj (with_ids (λ _, JNum 7) [("123", editor_entry)])))
    (fresh desk) "state.json" false
  = Run [Print (MsgLoaded 1);
         Print (MsgRemoving 123 [MAXIMIZED_VERT]);
         SetWmState 123 ACTION_REMOVE (JStr MAXIMIZED_VERT) (JNum 0);
         Print (MsgMoving 123 (JNum 0) (JNum 0) (JNum 800) (JNum 600));
         SetMoveResizeWindow 123 (JNum 0) (JNum 0) (JNum 800) (JNum 600);
         Flush]
        (Ok ({| ew := desk; windows := Some [(123%Z, editor)] |}, None)).
Proof. vm_compute. reflexivity. Qed.

(** ** Capturing the window set *)

Lemma keeps_filter (w : WmWindow) : keeps true w = true ↔ w.(type) = [NORMAL].
Proof.
  unfold keeps. cbn [negb orb]. rewrite andb_true_iff, !bool_decide_eq_true.
  destruct w.(type) as [|t [|t' ty]]; cbn; split;
    try (intros [? ?]; congruence); try congruence; try done.
  by intros [= ->].
Qed.

(** The loop of [get_windows] when every window can be read: the result
    holds the windows of the list that pass the test, and what the dict
    held before.  The dict built so far must only hold snapshots of the
    server. *)
Lemma get_windows_loop_spec (ew : EWMH) (filter : bool) (wins : list Z)
    (acc : list (Z * WmWindow)) :
  (∀ i, i ∈ wins → ∃ w, WmWindow_init i ew = Ok w) →
  (∀ i w, dict_get acc i = Some w → WmWindow_init i ew = Ok w) →
  ∃ captured,
    get_windows_loop ew filter wins acc = Ok captured
    ∧ ∀ i w, dict_get captured i = Some w
             ↔ (i ∈ wins ∧ WmWindow_init i ew = Ok w ∧ keeps filter w = true)
               ∨ dict_get acc i = Some w.
Proof.
  revert acc. induction wins as [|win wins IH]; intros acc Hread Hacc.
  - exists acc. split; [done|]. intros i w. split; [by right|].
    intros [[Hin _]|?]; [by apply elem_of_nil in Hin|done].
  - destruct (Hread win) as [w0 Hw0]; [left|].
    cbn [get_windows_loop]. rewrite Hw0. cbn [mbind result_bind].
    fold (keeps filter w0).
    destruct (IH (if keeps filter w0 then dict_set acc win w0 else acc))
      as (captured & Hrun & Hspec).
    { intros i Hi. apply Hread. by right. }
    { intros i w. destruct (keeps filter w0); [|apply Hacc].
      rewrite dict_get_set. destruct (decide (win = i)) as [->|]; [|apply Hacc].
      by intros [= <-]. }
    exists captured. split; [exact Hrun|]. intros i w. rewrite Hspec.
    rewrite elem_of_cons. destruct (keeps filter w0) eqn:Hkeep.
    + rewrite dict_get_set. destruct (decide (win = i)) as [->|Hne].
      * split.
        -- intros [(_ & Hi & Hk)|[= <-]]; left; eauto.
        -- intros [(_ & Hi & Hk)|Hold]; right; [congruence|].
           apply Hacc in Hold. congruence.
      * split.
        -- intros [(? & ? & ?)|?]; [left|right]; eauto.
        -- intros [([?|?] & ? & ?)|?]; [congruence|left|right]; eauto.
    + split.
      * intros [(? & ? & ?)|?]; [left|right]; eauto.
      * intros [([->|?] & Hi & Hk)|?]; [congruence|left|right]; eauto.
Qed.

(** C6.  When every window of the client list can be read, capture with
    filtering yields a mapping that holds, under its identity, exactly
    each listed window whose type sequence is the one-element sequence
    [_NET_WM_WINDOW_TYPE_NORMAL]; windows with any other type sequence
    (empty, longer, another tag) are not in the mapping. *)
Theorem get_windows_filter_normal (ew : EWMH) (wins : list Z) :
  ew.(getClientList) = Ok wins →
  (∀ i, i ∈ wins → ∃ w, WmWindow_init i ew = Ok w) →
  ∃ captured,
    get_windows ew true = Ok captured
    ∧ ∀ i w, dict_get captured i = Some w
             ↔ i ∈ wins ∧ WmWindow_init i ew = Ok w ∧ w.(type) = [NORMAL].
Proof.
  intros Hlist Hread. unfold get_windows. rewrite Hlist. cbn [mbind result_bind].
  destruct (get_windows_loop_spec ew true wins [] Hread) as (captured & Hrun & Hspec);
    [done|].
  exists captured. split; [exact Hrun|]. intros i w.
  rewrite Hspec, keeps_filter. split; [intros [?|?]; done|by left].
Qed.

Lemma get_windows_filter_normal_witness :
  ∃ captured,
    get_windows desk true = Ok captured
    ∧ ∀ i w, dict_get captured i = Some w
             ↔ i ∈ [123; 124]%Z ∧ WmWindow_init i desk = Ok w
               ∧ w.(type) = [NORMAL].
Proof.
  apply (get_windows_filter_normal desk [123; 124]%Z).
  - reflexivity.
  - intros i Hi. apply elem_of_cons in Hi as [->|Hi].
    + eexists. vm_compute. reflexivity.
    + apply list_elem_of_singleton in Hi as ->.
      eexists. vm_compute. reflexivity.
Defined.

(** On the sample server the editor is kept and the dialog is not. *)
Example get_windows_desk : get_windows desk true = Ok [(123%Z, editor)].
Proof. vm_compute. reflexivity. Qed.

Lemma get_windows_loop_raise (ew : EWMH) (filter : bool) (pre post : list Z)
    (win : Z) (acc : list (Z * WmWindow)) (e : exn) :
  (∀ i, i ∈ pre → ∃ w, WmWindow_init i ew = Ok w) →
  WmWindow_init win ew = Raise e →
  get_windows_loop ew filter (pre ++ win :: post) acc = Raise e.
Proof.
  revert acc. induction pre as [|i pre IH]; intros acc Hpre Hwin.
  - cbn. by rewrite Hwin.
  - destruct (Hpre i) as [w Hw]; [left|].
    cbn. rewrite Hw. cbn. apply IH; [|done].
    intros j Hj. apply Hpre. by right.
Qed.

(** A read that fails makes the constructor fail with the same exception:
    here for the first two reads, the type and the state. *)
Lemma WmWindow_init_read_fails (ew : EWMH) (win : Z) (e : exn) :
  ew.(getWmWindowType) win = Raise e
  ∨ (∃ ty, ew.(getWmWindowType) win = Ok ty) ∧ ew.(getWmState) win = Raise e →
  WmWindow_init win ew = Raise e.
Proof.
  unfold WmWindow_init. intros [->|[[ty ->] ->]]; reflexivity.
Qed.

Section capture_failure.
Context `{SetOrder}.

(** C8, as the code has it.  A window whose construction fails during
    capture (a property read raised, [BadWindow] when the window has
    vanished) is not dropped: the exception leaves [get_windows], no
    capture set is produced, and [save] and [restore] on a fresh persister
    end with that exception; [save] writes nothing and [restore] issues no
    adapter call. *)
Theorem capture_read_failure_propagates (server : EWMH) (pre post : list Z)
    (win : Z) (e : exn) :
  server.(getClientList) = Ok (pre ++ win :: post) →
  (∀ i, i ∈ pre → ∃ w, WmWindow_init i server = Ok w) →
  WmWindow_init win server = Raise e →
  (∀ filter, get_windows server filter = Raise e)
  ∧ (∀ w filename, save w (fresh server) filename false = Run [] (Raise e))
  ∧ (∀ w filename kvs,
       w.(file) filename = Document (JObj kvs) →
       restore w (fresh server) filename false
       = Run [Print (MsgLoaded (length kvs))] (Raise e)).
Proof.
  intros Hlist Hpre Hwin.
  assert (Hget : ∀ filter, get_windows server filter = Raise e).
  { intros filter. unfold get_windows. rewrite Hlist. cbn [mbind result_bind].
    by apply get_windows_loop_raise. }
  split; [exact Hget|]. split.
  - intros w filename. unfold save, current_windows, fresh. cbn [windows ew].
    by rewrite Hget.
  - intros w filename kvs Hfile. unfold restore, read_data.
    rewrite Hfile, bind_ret. unfold py_len. rewrite bind_lift_Ok.
    unfold current_windows, fresh. cbn [windows ew].
    by rewrite Hget.
Qed.
End capture_failure.

Lemma capture_read_failure_propagates_witness :
  (∀ filter, get_windows desk_vanishing filter = Raise BadWindow)
  ∧ (∀ w filename,
       @save elements_order w (fresh desk_vanishing) filename false
       = Run [] (Raise BadWindow))
  ∧ (∀ w filename kvs,
       w.(file) filename = Document (JObj kvs) →
       @restore elements_order w (fresh desk_vanishing) filename false
       = Run [Print (MsgLoaded (length kvs))] (Raise BadWindow)).
Proof.
  apply (@capture_read_failure_propagates elements_order desk_vanishing
           [123%Z] [] 124%Z BadWindow).
  - reflexivity.
  - intros i Hi. apply list_elem_of_singleton in Hi as ->.
    eexists. vm_compute. reflexivity.
  - reflexivity.
Defined.

(** C8 fails as stated: the dialog vanishes while its state is read; the
    capture does not continue with the editor, it yields no set at all,
    and [save] ends with [BadWindow] before anything is written. *)
Lemma capture_vanished_window_counterexample :
  desk_vanishing.(getWmState) 124%Z = Raise BadWindow
  ∧ get_windows desk_vanishing true = Raise BadWindow
  ∧ @main elements_order (world_with desk_vanishing doc_editor)
      ["wmsr.py"; "save"]
    = Run [Print MsgSavingAll] (Raise BadWindow).
Proof. repeat split; vm_compute; reflexivity. Qed.

(** ** Saving and reading back *)

Section roundtrip.
Context `{SetOrder}.

Lemma result_mapM_Ok {A B} (f : A → result B) (g : A → B) (l : list A) :
  (∀ a, a ∈ l → f a = Ok (g a)) → result_mapM f l = Ok (g <$> l).
Proof.
  induction l as [|a l IH]; intros Hf; [done|].
  cbn. rewrite Hf by left. rewrite IH; [done|].
  intros b Hb. apply Hf. by right.
Qed.

Lemma json_encode_strs (default : pyobj → result pyobj) (n : nat) (l : list string) :
  json_encode default (S (S n)) (PList (PStr <$> l)) = Ok (JArr (JStr <$> l)).
Proof.
  cbn [json_encode].
  rewrite (result_mapM_Ok _ (λ o, match o with PStr s => JStr s | _ => JNull end)).
  - cbn. f_equal. f_equal. rewrite <- list_fmap_compose. done.
  - intros o [s [-> _]]%list_elem_of_fmap. done.
Qed.

Lemma json_encode_ints (default : pyobj → result pyobj) (n : nat) (l : list Z) :
  json_encode default (S (S n)) (PList (PInt <$> l)) = Ok (JArr (JNum <$> l)).
Proof.
  cbn [json_encode].
  rewrite (result_mapM_Ok _ (λ o, match o with PInt z => JNum z | _ => JNull end)).
  - cbn. f_equal. f_equal. rewrite <- list_fmap_compose. done.
  - intros o [s [-> _]]%list_elem_of_fmap. done.
Qed.

Lemma json_encode_set (n : nat) (s : gset string) :
  json_encode serializer (S (S (S n))) (PSet s)
  = Ok (JArr (JStr <$> list_of_set s)).
Proof.
  change (json_encode serializer (S (S (S n))) (PSet s))
    with (json_encode serializer (S (S n)) (PList (PStr <$> list_of_set s))).
  apply json_encode_strs.
Qed.

Lemma serializer_window (w : WmWindow) :
  serializer (PWmWindow w)
  = Ok (PDict [(KStr "id", PInt w.(id));
               (KStr "type", PList (PStr <$> w.(type)));
               (KStr "state", PSet w.(state));
               (KStr "geometry", PList (PInt <$> w.(geometry)));
               (KStr "name", PStr w.(name))]).
Proof. vm_compute. reflexivity. Qed.

(** The hook turns a snapshot into its entry: every attribute but [win],
    the state set as a list in iteration order. *)
Lemma json_encode_window (n : nat) (w : WmWindow) :
  json_encode serializer (5 + n) (PWmWindow w)
  = Ok (entry_of w (list_of_set w.(state))).
Proof.
  change (json_encode serializer (5 + n) (PWmWindow w))
    with (serializer (PWmWindow w) ≫= json_encode serializer (S (S (S (S n))))).
  rewrite serializer_window. cbn [mbind result_bind].
  change (json_encode serializer (S (S (S (S n)))) (PDict ?kvs))
    with (JObj <$> result_mapM
                     (λ '(k, v),
                        v' ← json_encode serializer (S (S (S n))) v;
                        Ok (key_string k, v'))
                     kvs).
  cbn [result_mapM].
  rewrite !json_encode_strs, json_encode_ints, json_encode_set.
  reflexivity.
Qed.

(** [dumps] on a captured set: one entry per window, under the decimal
    string of its key. *)
Lemma dumps_captured (limit : nat) (self : WmWindowPersister)
    (captured : list (Z * WmWindow)) :
  self.(windows) = Some captured → 6 ≤ limit →
  dumps limit self
  = Run [] (Ok (Some (JObj ((λ iw, (pretty iw.1,
                                      entry_of iw.2 (list_of_set iw.2.(state))))
                              <$> captured)))).
Proof.
  intros Hw Hlimit. unfold dumps. rewrite Hw.
  destruct limit as [|n]; [lia|].
  replace n with (5 + (n - 5)) by lia.
  cbn [windows_obj json_encode].
  rewrite (result_mapM_Ok _
             (λ kv, match kv with
                    | (k, PWmWindow w) =>
                        (key_string k, entry_of w (list_of_set w.(state)))
                    | (k, _) => (key_string k, JNull)
                    end)).
  - cbn. rewrite <- list_fmap_compose. unfold mret, M_ret. do 4 f_equal.
    apply list_fmap_ext. by intros ? [i w] _.
  - intros kv [[i w] [-> _]]%list_elem_of_fmap.
    by rewrite json_encode_window.
Qed.

Lemma dict_get_encoded {V W} (g : V → W) (d : list (Z * V)) (i : Z) :
  dict_get ((λ iw, (pretty iw.1, g iw.2)) <$> d) (pretty i)
  = g <$> dict_get d i.
Proof.
  induction d as [|[j v] d IH]; [done|]. cbn.
  destruct (decide (j = i)) as [->|Hne].
  - by rewrite decide_True.
  - rewrite decide_False; [exact IH|]. by intros ?%(inj pretty).
Qed.

Lemma dict_get_encoded_inv {V W} (g : V → W) (d : list (Z * V)) (key : string)
    (x : W) :
  dict_get ((λ iw, (pretty iw.1, g iw.2)) <$> d) key = Some x →
  ∃ i v, key = pretty i ∧ dict_get d i = Some v ∧ x = g v.
Proof.
  induction d as [|[j v] d IH]; [done|]. cbn.
  destruct (decide (pretty j = key)) as [<-|Hne].
  - intros [= <-]. exists j, v. by rewrite decide_True.
  - intros (i & v' & -> & Hi & ->)%IH. exists i, v'.
    rewrite decide_False; [done|]. by intros ->.
Qed.

(** C5.  Saving a captured set and reading the file back gives the
    capture, field for field.  [save] writes one document [doc]; reading a
    file with that content returns [doc]; in [doc] every identity of the
    capture has, under its decimal string, an entry whose [id], [type],
    [geometry] and [name] are the snapshot's and whose [state] lists
    exactly the elements of the snapshot's state set, in some order; and
    [doc] has no other entry. *)
Theorem save_read_data_roundtrip (w w' : World) (self : WmWindowPersister)
    (captured : list (Z * WmWindow)) (filename : string) :
  current_windows self false = Ok captured →
  6 ≤ w.(recursion_limit) →
  w.(writable) filename = true →
  ∃ doc,
    save w self filename false
    = Run [WriteFile filename doc; Print (MsgSaved (length captured))]
          (Ok ({| ew := self.(ew); windows := Some captured |}, true))
    ∧ (w'.(file) filename = Document doc →
       read_data w' filename = Run [] (Ok doc))
    ∧ (∀ i snap,
         dict_get captured i = Some snap →
         ∃ states,
           states ≡ₚ elements snap.(state)
           ∧ py_getitem doc (JStr (pretty i)) = Ok (entry_of snap states))
    ∧ (∀ key entry,
         py_getitem doc (JStr key) = Ok entry →
         ∃ i snap, key = pretty i ∧ dict_get captured i = Some snap).
Proof.
  intros Hcur Hlimit Hwr.
  eexists. split; [|split; [|split]].
  - unfold save. rewrite Hcur, bind_lift_Ok.
    rewrite (dumps_captured _ _ captured) by done.
    rewrite bind_Ok. cbn [trace outcome app]. rewrite Hwr. reflexivity.
  - intros Hfile. unfold read_data. by rewrite Hfile.
  - intros i snap Hi. exists (list_of_set snap.(state)).
    split; [apply list_of_set_perm|].
    unfold py_getitem.
    rewrite (dict_get_encoded (λ v, entry_of v (list_of_set v.(state)))), Hi.
    done.
  - intros key entry. unfold py_getitem.
    destruct (dict_get _ key) as [x|] eqn:Hx; [|done]. intros _.
    apply (dict_get_encoded_inv (λ v, entry_of v (list_of_set v.(state)))) in Hx
      as (i & v & -> & Hi & _).
    eauto.
Qed.
End roundtrip.

Lemma save_read_data_roundtrip_witness :
  ∃ doc,
    @save elements_order (world_with desk doc_editor) (fresh desk)
      "state.json" false
    = Run [WriteFile "state.json" doc; Print (MsgSaved (length [(123%Z, editor)]))]
          (Ok ({| ew := desk; windows := Some [(123%Z, editor)] |}, true))
    ∧ ((world_with desk
          (JObj [("123", entry_of editor [MAXIMIZED_VERT])])).(file) "state.json"
       = Document doc →
       read_data (world_with desk
                    (JObj [("123", entry_of editor [MAXIMIZED_VERT])]))
         "state.json"
       = Run [] (Ok doc))
    ∧ (∀ i snap,
         dict_get [(123%Z, editor)] i = Some snap →
         ∃ states,
           states ≡ₚ elements snap.(state)
           ∧ py_getitem doc (JStr (pretty i)) = Ok (entry_of snap states))
    ∧ (∀ key entry,
         py_getitem doc (JStr key) = Ok entry →
         ∃ i snap, key = pretty i ∧ dict_get [(123%Z, editor)] i = Some snap).
Proof.
  apply (@save_read_data_roundtrip elements_order
           (world_with desk doc_editor)
           (world_with desk (JObj [("123", entry_of editor [MAXIMIZED_VERT])]))
           (fresh desk) [(123%Z, editor)] "state.json").
  - vm_compute. reflexivity.
  - vm_compute. lia.
  - reflexivity.
Defined.

(** The document written for the sample server, and read back. *)
Example save_desk :
  @save elements_order (world_with desk doc_editor) (fresh desk)
    "state.json" false
  = Run [WriteFile "state.json"
           (JObj [("123", entry_of editor [MAXIMIZED_VERT])]);
         Print (MsgSaved 1)]
        (Ok ({| ew := desk; windows := Some [(123%Z, editor)] |}, true)).
Proof. vm_compute. reflexivity. Qed.

(** ** The command line *)

Lemma verb_not_listed (verb : string) :
  verb ∉ ["save"; "restore"] ↔ ¬ (verb = "save" ∨ verb = "restore").
Proof. rewrite !elem_of_cons, elem_of_nil. tauto. Qed.

Lemma get_options_spec (w : World) (prog : string) (args : list string) :
  get_options w (prog :: args)
  = Ok (if usage_error args then None
        else Some (default "" (head args),
                   default (DEFAULT_STATE_PATH w) (head (tail args)))).
Proof.
  unfold get_options, usage_error.
  destruct args as [|verb [|p [|q rest]]]; cbn [length head tail default].
  - reflexivity.
  - rewrite !bool_decide_eq_false_2 by (cbn; lia). cbn [orb].
    rewrite (bool_decide_ext (verb ∉ ["save"; "restore"])
               (¬ (verb = "save" ∨ verb = "restore")))
      by apply verb_not_listed.
    rewrite bool_decide_not, bool_decide_or. by destruct (negb _).
  - rewrite !bool_decide_eq_false_2 by (cbn; lia). cbn [orb].
    rewrite (bool_decide_ext (verb ∉ ["save"; "restore"])
               (¬ (verb = "save" ∨ verb = "restore")))
      by apply verb_not_listed.
    rewrite bool_decide_not, bool_decide_or. by destruct (negb _).
  - rewrite (bool_decide_eq_false_2 (_ < 1)) by (cbn; lia).
    rewrite !(bool_decide_eq_true_2 (2 < _)) by (cbn; lia).
    rewrite orb_true_r. reflexivity.
Qed.

Section no_usage_facts.
Context `{SetOrder}.

Lemma no_usage_bind {A B} (m : M A) (f : A → M B) :
  no_usage m → (∀ a, no_usage (f a)) → no_usage (m ≫= f).
Proof.
  unfold no_usage. intros Hm Hf. rewrite trace_bind.
  destruct (outcome m); [|done]. apply Forall_app. split; [done|apply Hf].
Qed.

Lemma no_usage_lift {A} (r : result A) : no_usage (lift r).
Proof. apply Forall_nil_2. Qed.

Lemma no_usage_ret {A} (a : A) : no_usage (mret a).
Proof. apply Forall_nil_2. Qed.

Lemma no_usage_emit (e : event) : is_usage e = false → no_usage (emit e).
Proof. intros He. by apply Forall_singleton. Qed.

Lemma no_usage_for_each {A} (l : list A) (body : A → M unit) :
  (∀ a, no_usage (body a)) → no_usage (for_each l body).
Proof.
  intros Hbody. induction l as [|a l IH]; [apply no_usage_ret|].
  rewrite for_each_cons. by apply no_usage_bind.
Qed.
End no_usage_facts.

(** Steps through a run built from binds, emits, lifts and case
    distinctions. *)
Ltac no_usage_step :=
  first
    [ apply no_usage_ret
    | apply no_usage_lift
    | apply no_usage_emit; reflexivity
    | apply no_usage_bind; [|intros ?]
    | apply no_usage_for_each; intros ?
    | match goal with
      | |- no_usage (if ?b then _ else _) => destruct b
      | |- no_usage (match ?x with _ => _ end) => destruct x
      | |- no_usage (let (_, _) := ?x in _) => destruct x
      end ].

Section main_facts.
Context `{SetOrder}.

Lemma no_usage_move (self : WmWindow) (geom : json) (st : option (gset string)) :
  no_usage (move self geom st).
Proof. unfold move, set_states, print. repeat no_usage_step. Qed.

Lemma no_usage_restore (w : World) (self : WmWindowPersister) (filename : string)
    (reload : bool) :
  no_usage (restore w self filename reload).
Proof.
  unfold restore, read_data, restore_loop, restore_entry, print.
  repeat (apply no_usage_move || no_usage_step).
Qed.

Lemma no_usage_save (w : World) (self : WmWindowPersister) (filename : string)
    (reload : bool) :
  no_usage (save w self filename reload).
Proof.
  unfold save, dumps, print. repeat no_usage_step.
Qed.

(** C9, as the code has it.  The script prints the usage message and
    exits with status 1 when the command line is in error (no argument
    after the program name, more than two, or a verb that is neither
    [save] nor [restore]), and only then does it print the usage message.
    On any other command line it prints no usage message, and it exits
    with status 0 when [save] or [restore] returns, whatever they return
    and whether or not windows were skipped; it exits with status 1 when
    an exception that nothing catches ends the run. *)
Theorem main_exit_status (w : World) (prog : string) (args : list string) :
  (usage_error args = true →
   main w (prog :: args)
   = Run [Print (MsgUsage (DEFAULT_STATE_PATH w))] (Ok 1%Z))
  ∧ (usage_error args = false →
     no_usage (main w (prog :: args))
     ∧ (outcome (main w (prog :: args)) = Ok 0%Z
        ∧ exit_status (main w (prog :: args)) = 0%Z
        ∨ (∃ e, outcome (main w (prog :: args)) = Raise e)
          ∧ exit_status (main w (prog :: args)) = 1%Z))
  ∧ (usage_error args = true
     ↔ exit_status (main w (prog :: args)) = 1%Z
       ∧ ¬ no_usage (main w (prog :: args))).
Proof.
  assert (Hbad : usage_error args = true →
                 main w (prog :: args)
                 = Run [Print (MsgUsage (DEFAULT_STATE_PATH w))] (Ok 1%Z)).
  { intros Hu. unfold main. by rewrite get_options_spec, Hu. }
  assert (Hgood : usage_error args = false →
     no_usage (main w (prog :: args))
     ∧ (outcome (main w (prog :: args)) = Ok 0%Z
        ∧ exit_status (main w (prog :: args)) = 0%Z
        ∨ (∃ e, outcome (main w (prog :: args)) = Raise e)
          ∧ exit_status (main w (prog :: args)) = 1%Z)).
  { intros Hu. unfold main, exit_status. rewrite get_options_spec, Hu.
    rewrite bind_lift_Ok.
    set (path := default (DEFAULT_STATE_PATH w) (head (tail args))).
    destruct (bool_decide (default "" (head args) = "save")).
    - split.
      + unfold print. repeat (apply no_usage_save || no_usage_step).
      + rewrite bind_print. cbn [outcome]. rewrite outcome_bind.
        destruct (outcome (save _ _ _ _)); [left|right]; eauto.
    - split.
      + unfold print. repeat (apply no_usage_restore || no_usage_step).
      + rewrite bind_print. cbn [outcome]. rewrite outcome_bind.
        destruct (outcome (restore _ _ _ _)); [left|right]; eauto. }
  split; [exact Hbad|]. split; [exact Hgood|]. split.
  - intros Hu. rewrite (Hbad Hu). split; [reflexivity|].
    unfold no_usage. cbn [trace]. intros Hall.
    apply Forall_inv in Hall. discriminate Hall.
  - intros [_ Hprinted]. destruct (usage_error args); [done|].
    destruct Hgood as [Hquiet _]; done.
Qed.
End main_facts.

(** C9 fails as stated: the command line [restore state.json] is valid,
    the file is the one without [geometry], and the process ends with
    status 1, without a usage message. *)
Lemma main_exit_status_counterexample :
  usage_error ["restore"; "state.json"] = false
  ∧ @main elements_order (world_with desk doc_no_geometry)
      ["wmsr.py"; "restore"; "state.json"]
    = Run [Print MsgRestoringAll; Print (MsgLoaded 1)] (Raise KeyError)
  ∧ exit_status (@main elements_order (world_with desk doc_no_geometry)
                   ["wmsr.py"; "restore"; "state.json"]) = 1%Z.
Proof. repeat split; vm_compute; reflexivity. Qed.

(** A window that was skipped does not change the status: the file names
    window 999, which does not exist, and the editor. *)
Example main_restore_with_skip :
  @main elements_order (world_with desk doc_drift) ["wmsr.py"; "restore"]
  = Run [Print MsgRestoringAll; Print (MsgLoaded 2);
         Print (MsgNotFound (JStr "999"));
         Print (MsgRemoving 123 [MAXIMIZED_VERT]);
         SetWmState 123 ACTION_REMOVE (JStr MAXIMIZED_VERT) (JNum 0);
         Print (MsgMoving 123 (JNum 0) (JNum 0) (JNum 800) (JNum 600));
         SetMoveResizeWindow 123 (JNum 0) (JNum 0) (JNum 800) (JNum 600);
         Flush]
        (Ok 0%Z).
Proof. vm_compute. reflexivity. Qed.

(** ** The model on small inputs *)

Example int_of_string_plain : int_of_string "123" = Some 123%Z.
Proof. reflexivity. Qed.

Example int_of_string_spaces : int_of_string " -1_000 " = Some (-1000)%Z.
Proof. reflexivity. Qed.

Example int_of_string_bad :
  int_of_string "" = None ∧ int_of_string "12a" = None
  ∧ int_of_string "1__0" = None ∧ int_of_string "- 1" = None.
Proof. repeat split; reflexivity. Qed.

(** The scenario of the editor: the file puts it at the origin with no
    state, the live window is at (100, 100) and maximized vertically. *)
Example restore_editor :
  @restore elements_order (world_with desk doc_editor) (fresh desk)
    "state.json" false
  = Run [Print (MsgLoaded 1);
         Print (MsgRemoving 123 [MAXIMIZED_VERT]);
         SetWmState 123 ACTION_REMOVE (JStr MAXIMIZED_VERT) (JNum 0);
         Print (MsgMoving 123 (JNum 0) (JNum 0) (JNum 800) (JNum 600));
         SetMoveResizeWindow 123 (JNum 0) (JNum 0) (JNum 800) (JNum 600);
         Flush]
        (Ok ({| ew := desk; windows := Some [(123%Z, editor)] |}, None)).
Proof. vm_compute. reflexivity. Qed.

(** A geometry of three components: the maximize state is removed, then
    the unpacking raises and nothing else is sent. *)
Example move_three_components :
  @move elements_order editor (JArr [JNum 0; JNum 0; JNum 800]) (Some ∅)
  = Run [Print (MsgRemoving 123 [MAXIMIZED_VERT]);
         SetWmState 123 ACTION_REMOVE (JStr MAXIMIZED_VERT) (JNum 0)]
        (Raise ValueError).
Proof. vm_compute. reflexivity. Qed.

(** ** Keys written by [save] parse back to the identity *)

Lemma is_nat_pretty_N_char (d : N) :
  (d < 10)%N → Ascii.is_nat (pretty_N_char d) = Some (N.to_nat d).
Proof.
  intros Hd.
  assert (d = 0 ∨ d = 1 ∨ d = 2 ∨ d = 3 ∨ d = 4 ∨ d = 5 ∨ d = 6 ∨ d = 7
          ∨ d = 8 ∨ d = 9)%N as Hcases by lia.
  repeat (destruct Hcases as [->|Hcases]; [reflexivity|]). by subst.
Qed.

Lemma pretty_N_char_plain (d : N) :
  is_py_space (pretty_N_char d) = false
  ∧ Ascii.eqb (pretty_N_char d) "-" = false
  ∧ Ascii.eqb (pretty_N_char d) "+" = false.
Proof. unfold pretty_N_char. repeat case_match; done. Qed.

Lemma int_digits_pretty_N_go (x : N) (s : string) :
  (0 < x)%N →
  int_digits 0 false (String.list_ascii_of_string (pretty_N_go x s))
  = int_digits (Z.of_N x) true (String.list_ascii_of_string s).
Proof.
  revert s. induction (N.lt_wf_0 x) as [x _ IH]; intros s Hx.
  rewrite pretty_N_go_step by done.
  pose proof (N.mod_lt x 10 ltac:(done)) as Hmod.
  pose proof (N.div_mod x 10 ltac:(done)) as Hdiv.
  destruct (decide (x `div` 10 = 0)%N) as [Hz|Hnz].
  - rewrite Hz, pretty_N_go_0. cbn [String.list_ascii_of_string int_digits].
    rewrite is_nat_pretty_N_char by done. f_equal. lia.
  - rewrite IH; [|by apply N.div_lt|lia].
    cbn [String.list_ascii_of_string int_digits].
    rewrite is_nat_pretty_N_char by done. f_equal. lia.
Qed.

Lemma pretty_N_go_no_space (x : N) (s : string) :
  Forall (λ c, is_py_space c = false) (String.list_ascii_of_string s) →
  Forall (λ c, is_py_space c = false)
    (String.list_ascii_of_string (pretty_N_go x s)).
Proof.
  revert s. induction (N.lt_wf_0 x) as [x _ IH]; intros s Hs.
  destruct (decide (0 < x)%N) as [Hx|Hx].
  - rewrite pretty_N_go_step by done. apply IH; [by apply N.div_lt|].
    cbn. constructor; [apply pretty_N_char_plain|done].
  - replace x with 0%N by lia. by rewrite pretty_N_go_0.
Qed.

Lemma pretty_N_go_head (x : N) (s : string) :
  (0 < x)%N →
  ∃ d l, String.list_ascii_of_string (pretty_N_go x s) = pretty_N_char d :: l.
Proof.
  revert s. induction (N.lt_wf_0 x) as [x _ IH]; intros s Hx.
  rewrite pretty_N_go_step by done.
  destruct (decide (x `div` 10 = 0)%N) as [Hz|Hnz].
  - rewrite Hz, pretty_N_go_0. cbn. eauto.
  - apply IH; [by apply N.div_lt|by apply N.neq_0_lt_0].
Qed.

Lemma lstrip_head (c : Ascii.ascii) (l : list Ascii.ascii) :
  is_py_space c = false → lstrip (c :: l) = c :: l.
Proof. intros Hc. cbn. by rewrite Hc. Qed.

Lemma strip_no_space (l : list Ascii.ascii) :
  Forall (λ c, is_py_space c = false) l → strip l = l.
Proof.
  intros Hl. unfold strip.
  assert (Hls : ∀ l', Forall (λ c, is_py_space c = false) l' → lstrip l' = l').
  { intros [|c l'] Hl'; [done|]. apply lstrip_head. by inversion Hl'. }
  rewrite (Hls l Hl), Hls; [apply reverse_involutive|].
  by apply Forall_reverse.
Qed.

(** [int(str(i)) == i]. *)
Lemma int_of_string_pretty (i : Z) : int_of_string (pretty i) = Some i.
Proof.
  destruct i as [|p|p]; [reflexivity|..].
  - unfold pretty, pretty_Z, pretty, pretty_positive, pretty, pretty_N.
    rewrite decide_False by done. unfold int_of_string.
    rewrite strip_no_space by (apply pretty_N_go_no_space; constructor).
    pose proof (int_digits_pretty_N_go (N.pos p) "" ltac:(done)) as Hval.
    destruct (pretty_N_go_head (N.pos p) "" ltac:(done)) as (d & l & Hl).
    rewrite Hl in *.
    destruct (pretty_N_char_plain d) as (_ & -> & ->). exact Hval.
  - unfold pretty, pretty_Z, pretty, pretty_positive, pretty, pretty_N.
    rewrite decide_False by done. unfold int_of_string.
    change (String.list_ascii_of_string ("-" +:+ ?s))
      with ("-"%char :: String.list_ascii_of_string s).
    rewrite strip_no_space
      by (constructor; [done|apply pretty_N_go_no_space; constructor]).
    cbn [Ascii.eqb Bool.eqb].
    rewrite (int_digits_pretty_N_go (N.pos p) "") by done. reflexivity.
Qed.

(** ** Restoring what was just saved *)

Lemma py_eq_ints_refl (zs : list Z) : py_eq_ints (JNum <$> zs) zs = true.
Proof.
  induction zs as [|z zs IH]; [done|]. cbn.
  by rewrite bool_decide_eq_true_2, IH.
Qed.

Lemma set_of_items_strs (l : list string) :
  set_of_items (JStr <$> l) = Ok (list_to_set l).
Proof. induction l as [|s l IH]; [done|]. cbn. by rewrite IH. Qed.

Lemma filter_none {A} (l : list A) : List.filter (λ _, false) l = [].
Proof. by induction l. Qed.

(** A loop whose iterations all succeed without calling the adapter
    succeeds without calling the adapter. *)
Lemma for_each_quiet {A} (l : list A) (body : A → M unit) :
  (∀ x, x ∈ l → adapter_calls (trace (body x)) = [] ∧ outcome (body x) = Ok ()) →
  adapter_calls (trace (for_each l body)) = []
  ∧ outcome (for_each l body) = Ok ().
Proof.
  intros Hbody.
  destruct (for_each_skip l (λ _, false) body body) as [Ht Ho];
    [by intros x Hx _; apply Hbody|done|].
  rewrite filter_none in Ht, Ho. by rewrite Ht, Ho.
Qed.

Section idempotence.
Context `{SetOrder}.

(** Applying to a window the entry that [save] wrote for it does
    nothing. *)
Lemma apply_entry_own (snap : WmWindow) (states : list string) :
  apply_entry snap (entry_of snap states)
  = Run [Print (MsgSameGeometry snap.(id))] (Ok ()).
Proof.
  assert (py_getitem (entry_of snap states) (JStr "geometry")
          = Ok (JArr (JNum <$> snap.(geometry)))) as Hgeo by reflexivity.
  assert (py_getitem (entry_of snap states) (JStr "state")
          = Ok (JArr (JStr <$> states))) as Hst by reflexivity.
  unfold apply_entry. rewrite Hgeo, Hst, !bind_lift_Ok.
  unfold py_set, py_iter. cbn [mbind result_bind].
  rewrite set_of_items_strs, bind_lift_Ok.
  unfold move, py_eq_list. by rewrite py_eq_ints_refl.
Qed.

(** X19.  Idempotence, end to end: [save] followed by [restore] of the
    file it wrote, on a window set that has not changed, sends nothing to
    the window manager but the final flush. *)
Theorem restore_after_save_is_noop (w w' : World) (self : WmWindowPersister)
    (captured : list (Z * WmWindow)) (filename : string) :
  current_windows self false = Ok captured →
  6 ≤ w.(recursion_limit) →
  w.(writable) filename = true →
  ∃ doc,
    save w self filename false
    = Run [WriteFile filename doc; Print (MsgSaved (length captured))]
          (Ok ({| ew := self.(ew); windows := Some captured |}, true))
    ∧ (w'.(file) filename = Document doc →
       adapter_calls
         (trace (restore w' {| ew := self.(ew); windows := Some captured |}
                   filename false)) = [Flush]
       ∧ outcome (restore w' {| ew := self.(ew); windows := Some captured |}
                    filename false)
         = Ok ({| ew := self.(ew); windows := Some captured |}, None)).
Proof.
  intros Hcur Hlimit Hwr.
  set (enc := λ iw : Z * WmWindow,
                (pretty iw.1, entry_of iw.2 (list_of_set iw.2.(state)))).
  exists (JObj (enc <$> captured)). split.
  - unfold save. rewrite Hcur, bind_lift_Ok.
    rewrite (dumps_captured _ _ captured) by done.
    rewrite bind_Ok. cbn [trace outcome app]. by rewrite Hwr.
  - intros Hfile.
    destruct (restore_trace w' {| ew := self.(ew); windows := Some captured |}
                filename false (enc <$> captured) captured Hfile eq_refl)
      as [Ht Ho].
    assert (Hloop : adapter_calls
                      (trace (restore_loop captured (JObj (enc <$> captured)))) = []
                    ∧ outcome (restore_loop captured (JObj (enc <$> captured)))
                      = Ok ()).
    { rewrite restore_loop_object. apply for_each_quiet. intros k Hk.
      apply list_elem_of_fmap in Hk as [[k' e] [-> Hk]].
      apply list_elem_of_fmap in Hk as [[i snap0] [[= -> ->] Hi]].
      assert (is_Some (dict_get captured i)) as [snap Hsnap].
      { apply dict_get_is_Some, list_elem_of_fmap. by exists (i, snap0). }
      cbn [fst].
      assert (restore_entry captured (JObj (enc <$> captured)) (JStr (pretty i))
              = Run [Print (MsgSameGeometry snap.(id))] (Ok ())) as ->; [|done].
      rewrite restore_entry_key. unfold enc.
      rewrite (dict_get_encoded (λ v, entry_of v (list_of_set v.(state)))).
      rewrite Hsnap. cbn [fmap option_fmap option_map].
      by rewrite int_of_string_pretty, Hsnap, apply_entry_own. }
    destruct Hloop as [Hcalls Hout].
    rewrite Ht, Ho, Hout. split; [|done].
    change (adapter_calls (?e :: ?t)) with (adapter_calls ([e] ++ t)).
    by rewrite !adapter_calls_app, Hcalls.
Qed.
End idempotence.

(** ** What a run never does *)

Section all_events_facts.
Context {Q : event → Prop}.

Lemma all_events_bind {A B} (m : M A) (f : A → M B) :
  all_events Q m → (∀ a, all_events Q (f a)) → all_events Q (m ≫= f).
Proof.
  unfold all_events. intros Hm Hf. rewrite trace_bind.
  destruct (outcome m); [|done]. apply Forall_app. split; [done|apply Hf].
Qed.

Lemma all_events_lift {A} (r : result A) : all_events Q (lift r).
Proof. apply Forall_nil_2. Qed.

Lemma all_events_ret {A} (a : A) : all_events Q (mret a).
Proof. apply Forall_nil_2. Qed.

Lemma all_events_emit (e : event) : Q e → all_events Q (emit e).
Proof. intros He. by apply Forall_singleton. Qed.

Lemma all_events_for_each {A} (l : list A) (body : A → M unit) :
  (∀ a, a ∈ l → all_events Q (body a)) → all_events Q (for_each l body).
Proof.
  induction l as [|a l IH]; intros Hbody; [apply all_events_ret|].
  rewrite for_each_cons. apply all_events_bind; [apply Hbody; left|].
  intros _. apply IH. intros b Hb. apply Hbody. by right.
Qed.
End all_events_facts.

Lemma all_events_impl {A} (Q Q' : event → Prop) (m : M A) :
  (∀ e, Q e → Q' e) → all_events Q m → all_events Q' m.
Proof. intros HQ Hm. eapply Forall_impl; [exact Hm|exact HQ]. Qed.

(** Steps through a run whose events are all emitted in plain sight. *)
Ltac all_events_step :=
  first
    [ apply all_events_ret
    | apply all_events_lift
    | apply all_events_emit; done
    | apply all_events_bind; [|intros ?]
    | match goal with
      | |- all_events _ (if ?b then _ else _) => destruct b
      | |- all_events _ (match ?x with _ => _ end) => destruct x
      | |- all_events _ (let (_, _) := ?x in _) => destruct x
      end ].

Section request_facts.
Context `{SetOrder}.

Lemma py_index_elem {A} (l : list A) (i : Z) (a : A) :
  py_index l i = Ok a → a ∈ l.
Proof.
  unfold py_index. case_bool_decide; [|done].
  destruct (l !! _) eqn:Hl; [|done]. intros [= <-].
  by eapply list_elem_of_lookup_2.
Qed.

Lemma states_list_tags (s : gset string) (d : json) :
  d ∈ states_list s → tag_of d ⊆ s.
Proof.
  unfold states_list. rewrite elem_of_app, list_elem_of_fmap.
  intros [(a & -> & Ha)|Hd].
  - cbn. rewrite (list_of_set_perm s), elem_of_elements in Ha.
    by apply singleton_subseteq_l.
  - apply list_elem_of_singleton in Hd as ->. apply empty_subseteq.
Qed.

(** The events of one state change: at most one request, for the window
    itself, naming elements of [s] only. *)
Lemma set_states_events (Q : event → Prop) (self : WmWindow) (action : Z)
    (s : gset string) :
  (∀ d1 d2, request_tags d1 d2 ⊆ s → Q (SetWmState self.(win) action d1 d2)) →
  all_events Q (set_states self action s).
Proof.
  intros HQ. unfold set_states.
  destruct (py_index (states_list s) 0) as [d1|] eqn:H1; [|apply Forall_nil_2].
  destruct (py_index (states_list s) 1) as [d2|] eqn:H2; [|apply Forall_nil_2].
  apply Forall_singleton, HQ. unfold request_tags.
  apply union_subseteq. split; apply states_list_tags; by eapply py_index_elem.
Qed.

(** The events of [move], whatever the arguments: lines, and requests for
    the window itself. *)
Lemma move_events (Q : event → Prop) (self : WmWindow) (geom : json)
    (st : option (gset string)) :
  (∀ m, Q (Print m)) →
  (∀ x y w h, Q (SetMoveResizeWindow self.(win) x y w h)) →
  (∀ action d1 d2, request_tags d1 d2 ⊆ MAXIMIZED_STATES →
                   Q (SetWmState self.(win) action d1 d2)) →
  all_events Q (move self geom st).
Proof.
  intros Hprint Hmove Hstate.
  assert (Hset : ∀ action s, s ⊆ MAXIMIZED_STATES →
                             all_events Q (set_states self action s)).
  { intros action s Hs. apply set_states_events. intros d1 d2 Hd.
    apply Hstate. by etrans. }
  unfold move, print.
  destruct (py_eq_list geom self.(geometry)); [by apply all_events_emit|].
  apply all_events_bind.
  { case_bool_decide; [|apply all_events_ret].
    apply all_events_bind; [by apply all_events_emit|intros _].
    apply Hset, maximize_subset. }
  intros _. apply all_events_bind; [apply all_events_lift|].
  intros [[[x y] w0] h].
  apply all_events_bind; [by apply all_events_emit|intros _].
  apply all_events_bind; [by apply all_events_emit|intros _].
  case_bool_decide; [|apply all_events_ret].
  apply all_events_bind; [by apply all_events_emit|intros _].
  apply Hset. destruct st; apply maximize_subset.
Qed.

(** X1.  Whatever its arguments, [move] sends requests for the window
    itself only, and its state-change requests name maximize tags only:
    no other state of the window (fullscreen, sticky, ...) is ever
    touched. *)
Theorem move_requests_are_local (self : WmWindow) (geom : json)
    (st : option (gset string)) :
  all_events
    (λ e, only_maximize e
          ∧ ∀ w, event_window e = Some w → w = self.(win))
    (move self geom st).
Proof.
  apply move_events.
  - intros m. by split.
  - intros x y w h. split; [done|]. by intros ? [= <-].
  - intros action d1 d2 Hd. split; [done|]. by intros ? [= <-].
Qed.
End request_facts.

Section restore_events.
Context `{SetOrder}.

Lemma restore_loop_events (live : list (Z * WmWindow)) (loaded : json) :
  all_events (λ e, request_for live loaded e ∧ e ≠ Flush ∧ is_write e = false)
    (restore_loop live loaded).
Proof.
  unfold restore_loop.
  destruct (py_iter loaded) as [ids|] eqn:Hids; [|apply Forall_nil_2].
  rewrite bind_lift_Ok. apply all_events_for_each. intros id Hid.
  unfold restore_entry.
  apply all_events_bind; [apply all_events_lift|intros entry].
  destruct (py_int id) as [iid|] eqn:Hint; [|apply Forall_nil_2].
  rewrite bind_lift_Ok.
  destruct (dict_get live iid) as [cur_win|] eqn:Hcur;
    [|by apply all_events_emit].
  repeat (apply all_events_bind; [apply all_events_lift|intros ?]).
  apply move_events.
  - done.
  - intros x y w h. split; [|done]. unfold request_for. cbn.
    split; [done|]. by exists ids, id, iid, cur_win.
  - intros action d1 d2 Hd. split; [|done]. unfold request_for. cbn.
    split; [done|]. by exists ids, id, iid, cur_win.
Qed.

(** [restore] on a document that is not [null], once its length and the
    live set are known. *)
Lemma restore_shape (w : World) (self : WmWindowPersister) (filename : string)
    (reload : bool) (loaded : json) (n : nat) (live : list (Z * WmWindow)) :
  w.(file) filename = Document loaded →
  loaded ≠ JNull →
  py_len loaded = Ok n →
  current_windows self reload = Ok live →
  trace (restore w self filename reload)
  = Print (MsgLoaded n)
    :: trace (restore_loop live loaded)
    ++ match outcome (restore_loop live loaded) with
       | Ok _ => [Flush]
       | Raise _ => []
       end
  ∧ outcome (restore w self filename reload)
    = match outcome (restore_loop live loaded) with
      | Ok _ => Ok ({| ew := self.(ew); windows := Some live |}, None)
      | Raise e => Raise e
      end.
Proof.
  intros Hfile Hnull Hlen Hlive. unfold restore, read_data.
  rewrite Hfile, bind_ret.
  assert (∀ k : M (WmWindowPersister * option bool),
            match loaded with JNull => mret (self, Some false) | _ => k end = k)
    as -> by (by destruct loaded).
  rewrite Hlen, bind_lift_Ok, Hlive, bind_print. cbn [trace outcome].
  rewrite bind_lift_Ok, trace_bind, outcome_bind.
  destruct (outcome (restore_loop live loaded)); [done|by rewrite app_nil_r].
Qed.

(** X2.  Every request [restore] sends is for a live window named by a
    key of the state file: the key parses to an integer, and the request
    goes to the window the live set holds under that integer.  State
    changes name maximize tags only.  Windows the file does not name are
    never touched. *)
Theorem restore_requests_are_named (w : World) (self : WmWindowPersister)
    (filename : string) (reload : bool) (loaded : json)
    (live : list (Z * WmWindow)) :
  w.(file) filename = Document loaded →
  current_windows self reload = Ok live →
  all_events (request_for live loaded) (restore w self filename reload).
Proof.
  intros Hfile Hlive.
  assert (loaded = JNull ∨ loaded ≠ JNull) as [->|Hnull]
    by (destruct loaded; auto).
  { unfold restore, read_data. rewrite Hfile. apply Forall_nil_2. }
  destruct (py_len loaded) as [n|e] eqn:Hlen.
  - destruct (restore_shape w self filename reload loaded n live) as [Ht _];
      [done..|].
    unfold all_events. rewrite Ht. constructor; [done|].
    apply Forall_app. split.
    + eapply all_events_impl; [|apply restore_loop_events]. by intros e [? _].
    + destruct (outcome _); [by apply Forall_singleton|constructor].
  - unfold restore, read_data. rewrite Hfile, bind_ret.
    destruct loaded; try done; cbn in Hlen; try discriminate;
      apply Forall_nil_2.
Qed.
End restore_events.

Lemma restore_requests_are_named_witness :
  all_events (request_for [(123%Z, editor)] doc_editor)
    (@restore elements_order (world_with desk doc_editor) (fresh desk)
       "state.json" false).
Proof.
  apply (@restore_requests_are_named elements_order
           (world_with desk doc_editor) (fresh desk) "state.json" false
           doc_editor [(123%Z, editor)]).
  - reflexivity.
  - vm_compute. reflexivity.
Defined.

Section restore_cases.
Context `{SetOrder}.

(** The four ways [restore] can go. *)
Lemma restore_cases (w : World) (self : WmWindowPersister) (filename : string)
    (reload : bool) :
  (∃ t, restore w self filename reload = Run t (Ok (self, Some false))
        ∧ (t = [] ∨ ∃ m, t = [Print m]))
  ∨ (∃ e, restore w self filename reload = Run [] (Raise e))
  ∨ (∃ n e, restore w self filename reload
            = Run [Print (MsgLoaded n)] (Raise e))
  ∨ (∃ loaded n live,
       trace (restore w self filename reload)
       = Print (MsgLoaded n)
         :: trace (restore_loop live loaded)
         ++ match outcome (restore_loop live loaded) with
            | Ok _ => [Flush]
            | Raise _ => []
            end
       ∧ outcome (restore w self filename reload)
         = match outcome (restore_loop live loaded) with
           | Ok _ => Ok ({| ew := self.(ew); windows := Some live |}, None)
           | Raise e => Raise e
           end).
Proof.
  destruct (w.(file) filename) as [| |loaded] eqn:Hfile.
  - left. unfold restore, read_data. rewrite Hfile. eauto.
  - left. unfold restore, read_data. rewrite Hfile. eauto.
  - assert (loaded = JNull ∨ loaded ≠ JNull) as [->|Hnull]
      by (destruct loaded; auto).
    { left. unfold restore, read_data. rewrite Hfile. eauto. }
    right. destruct (py_len loaded) as [n|e] eqn:Hlen.
    + right. destruct (current_windows self reload) as [live|e] eqn:Hlive.
      * right. exists loaded, n, live. by apply restore_shape.
      * left. exists n, e. unfold restore, read_data.
        rewrite Hfile, bind_ret.
        destruct loaded; try done; rewrite Hlen, bind_lift_Ok, Hlive; done.
    + left. exists e. unfold restore, read_data. rewrite Hfile, bind_ret.
      destruct loaded; try done; by rewrite Hlen.
Qed.

(** X3.  [restore] flushes the connection exactly when it has gone
    through every entry and returns (with [None]); the flush is then the
    last thing it does, and it happens once.  A run that returns [False]
    or that an exception ends does not flush. *)
Theorem restore_flushes_last (w : World) (self : WmWindowPersister)
    (filename : string) (reload : bool) :
  (Flush ∈ trace (restore w self filename reload)
   ↔ ∃ p, outcome (restore w self filename reload) = Ok (p, None))
  ∧ (Flush ∈ trace (restore w self filename reload) →
     ∃ t, trace (restore w self filename reload) = t ++ [Flush] ∧ Flush ∉ t).
Proof.
  destruct (restore_cases w self filename reload)
    as [(t & -> & Ht)|[[e ->]|[(n & e & ->)|(loaded & n & live & Ht & Ho)]]].
  - cbn [trace outcome].
    assert (Flush ∉ t) as Hno.
    { destruct Ht as [->|[m ->]]; [apply not_elem_of_nil|].
      by intros ?%list_elem_of_singleton. }
    split; [split; [done|by intros [p [=]]]|done].
  - cbn [trace outcome].
    split; [split; [by intros ?%elem_of_nil|by intros [p [=]]]|].
    by intros ?%elem_of_nil.
  - cbn [trace outcome].
    split; [split; [by intros ?%list_elem_of_singleton|by intros [p [=]]]|].
    by intros ?%list_elem_of_singleton.
  - rewrite Ht, Ho.
    assert (Flush ∉ trace (restore_loop live loaded)) as Hloop.
    { intros Hin.
      pose proof (restore_loop_events live loaded) as Hall.
      unfold all_events in Hall. rewrite Forall_forall in Hall.
      by destruct (Hall _ Hin) as (_ & ? & _). }
    destruct (outcome (restore_loop live loaded)) as [[]|e].
    + split; [split; [eauto|intros _; right; apply elem_of_app; right; left]|].
      intros _. exists (Print (MsgLoaded n) :: trace (restore_loop live loaded)).
      split; [done|]. by intros [?|?]%elem_of_cons.
    + rewrite app_nil_r.
      assert (Flush ∉ Print (MsgLoaded n) :: trace (restore_loop live loaded))
        by (by intros [?|?]%elem_of_cons).
      split; [split; [done|by intros [p [=]]]|done].
Qed.

(** X4.  [restore] never writes a file, whatever the state file holds
    and whatever the server answers. *)
Theorem restore_writes_nothing (w : World) (self : WmWindowPersister)
    (filename : string) (reload : bool) :
  all_events (λ e, is_write e = false) (restore w self filename reload).
Proof.
  unfold all_events.
  destruct (restore_cases w self filename reload)
    as [(t & -> & Ht)|[[e ->]|[(n & e & ->)|(loaded & n & live & Ht & Ho)]]].
  - destruct Ht as [->|[m ->]]; [constructor|by apply Forall_singleton].
  - constructor.
  - by apply Forall_singleton.
  - rewrite Ht. constructor; [done|]. apply Forall_app. split.
    + eapply all_events_impl; [|apply restore_loop_events].
      by intros e (_ & _ & ?).
    + destruct (outcome _); [by apply Forall_singleton|constructor].
Qed.

(** X5.  [save] never sends a request to the window manager: it only
    reads the server, prints, and writes the file. *)
Theorem save_sends_nothing (w : World) (self : WmWindowPersister)
    (filename : string) (reload : bool) :
  all_events (λ e, is_adapter_call e = false) (save w self filename reload).
Proof.
  unfold save, dumps, print. repeat all_events_step.
Qed.
End restore_cases.

(** ** Failures that are reported, and the exit status *)

Section reported_failures.
Context `{SetOrder}.


Lemma main_save (w : World) (prog path : string) :
  main w [prog; "save"; path]
  = (print MsgSavingAll;;
     save w {| ew := w.(display); windows := None |} path false;;
     mret 0%Z).
Proof.
  unfold main. rewrite get_options_spec.
  assert (usage_error ["save"; path] = false) as -> by reflexivity.
  by rewrite bind_lift_Ok.
Qed.



End reported_failures.


Section save_outcome.
Context `{SetOrder}.


(** X9.  A target geometry that differs from the live one but cannot be
    unpacked into four values ends [move] with the exception of the
    unpacking, after the maximize state has been removed: a maximized
    window is left unmaximized, it is not moved, and its state is not
    restored. *)
Theorem move_bad_geometry (self : WmWindow) (geom : json)
    (st : option (gset string)) (e : exn) :
  py_eq_list geom self.(geometry) = false →
  unpack4 geom = Raise e →
  move self geom st
  = Run (state_change self ACTION_REMOVE MsgRemoving
           (self.(state) ∩ MAXIMIZED_STATES))
        (Raise e).
Proof.
  intros Hne Hun. unfold move. rewrite Hne, Hun.
  rewrite (state_change_run self ACTION_REMOVE MsgRemoving)
    by apply maximize_subset.
  rewrite bind_Ok. cbn [trace outcome]. by rewrite app_nil_r.
Qed.

Lemma py_eq_ints_eq (xs zs : list Z) :
  py_eq_ints (JNum <$> xs) zs = true ↔ xs = zs.
Proof.
  revert zs. induction xs as [|x xs IH]; intros [|z zs]; cbn; try done.
  rewrite andb_true_iff, bool_decide_eq_true, IH.
  split; [by intros [-> ->]|by intros [= -> ->]].
Qed.

(** X10.  For a target geometry of four integers, [move] sends a
    move/resize request exactly when the target differs from the live
    geometry in some component; the comparison has no tolerance. *)
Theorem move_iff_differs (self : WmWindow) (xs : list Z)
    (st : option (gset string)) :
  length xs = 4 →
  (∃ e, e ∈ trace (move self (JArr (JNum <$> xs)) st)
        ∧ is_move_resize e = true)
  ↔ xs ≠ self.(geometry).
Proof.
  intros Hlen.
  destruct xs as [|x [|y [|w0 [|h [|? ?]]]]]; try discriminate Hlen.
  destruct (py_eq_list (JArr (JNum <$> [x; y; w0; h])) self.(geometry))
    eqn:Heq.
  - pose proof Heq as Heq'. apply py_eq_ints_eq in Heq'.
    unfold move. rewrite Heq. cbn [trace print emit]. split; [|done].
    intros (e & He & Hmv). apply list_elem_of_singleton in He as ->. done.
  - assert ([x; y; w0; h] ≠ self.(geometry)) as Hne.
    { intros Hxs. apply py_eq_ints_eq in Hxs. unfold py_eq_list in Heq.
      congruence. }
    split; [done|]. intros _.
    rewrite (move_differs self _ st (JNum x) (JNum y) (JNum w0) (JNum h))
      by done.
    exists (SetMoveResizeWindow self.(win) (JNum x) (JNum y) (JNum w0) (JNum h)).
    split; [|done]. cbn [trace]. rewrite !elem_of_app. right. left.
    right. left.
Qed.
End save_outcome.


Lemma move_bad_geometry_witness :
  @move elements_order editor (JArr [JNum 0; JNum 0; JNum 800]) (Some ∅)
  = Run (@state_change elements_order editor ACTION_REMOVE MsgRemoving
           (editor.(state) ∩ MAXIMIZED_STATES))
        (Raise ValueError).
Proof.
  apply (@move_bad_geometry elements_order editor
           (JArr [JNum 0; JNum 0; JNum 800]) (Some ∅) ValueError);
    reflexivity.
Defined.

Lemma move_iff_differs_witness :
  (∃ e, e ∈ trace (@move elements_order editor
                     (JArr (JNum <$> [0; 0; 800; 600]%Z)) None)
        ∧ is_move_resize e = true)
  ↔ [0; 0; 800; 600]%Z ≠ editor.(geometry).
Proof.
  apply (@move_iff_differs elements_order editor [0; 0; 800; 600]%Z None).
  reflexivity.
Defined.

(** ** The frame of a window *)

Lemma get_frame_loop_parent (ew : EWMH) (fuel : nat) (client root frame : Z) :
  get_frame_loop ew fuel client root = Ok frame →
  ew.(query_tree_parent) frame = Ok root.
Proof.
  revert client. induction fuel as [|fuel IH]; intros client; [done|].
  cbn [get_frame_loop].
  destruct (ew.(query_tree_parent) client) as [parent|] eqn:Hp; [|done].
  cbn [mbind result_bind]. case_bool_decide as Hroot.
  - apply IH.
  - intros [= <-]. by rewrite Hp, Hroot.
Qed.

(** X11.  The window [get_frame] returns is a child of the root: its
    parent in the window tree is the root window. *)
Theorem get_frame_child_of_root (ew : EWMH) (client root frame : Z) :
  get_frame ew client root = Ok frame →
  ew.(query_tree_parent) frame = Ok root.
Proof. apply get_frame_loop_parent. Qed.

Lemma get_frame_loop_climbs (ew : EWMH) (n fuel : nat) (client root frame : Z) :
  n < fuel →
  ancestor ew n client = Ok frame →
  ew.(query_tree_parent) frame = Ok root →
  (∀ k a, k < n → ancestor ew k client = Ok a →
          ew.(query_tree_parent) a ≠ Ok root) →
  get_frame_loop ew fuel client root = Ok frame.
Proof.
  revert fuel client. induction n as [|n IH]; intros fuel client Hfuel Hanc Hp Hbelow.
  - destruct fuel as [|fuel]; [lia|]. cbn in Hanc. injection Hanc as ->.
    cbn [get_frame_loop]. rewrite Hp. cbn [mbind result_bind].
    by rewrite bool_decide_eq_false_2 by (by intros ?).
  - destruct fuel as [|fuel]; [lia|]. cbn [ancestor] in Hanc.
    cbn [get_frame_loop].
    destruct (ew.(query_tree_parent) client) as [parent|] eqn:Hparent; [|done].
    cbn [mbind result_bind].
    rewrite bool_decide_eq_true_2.
    + apply IH; [lia|done..|].
      intros k a Hk Ha. apply (Hbelow (S k)); [lia|]. cbn [ancestor].
      by rewrite Hparent.
    + intros ->. by apply (Hbelow 0 client); [lia|..].
Qed.

(** X12.  [get_frame] finds the frame however deep the client sits: if
    the ancestor [n] levels above the client is a child of the root, no
    ancestor below it is, and the tree is no deeper than [tree_depth],
    then [get_frame] returns that ancestor.  A client that is itself a
    child of the root ([n = 0]) is its own frame. *)
Theorem get_frame_climbs (ew : EWMH) (n : nat) (client root frame : Z) :
  n < ew.(tree_depth) →
  ancestor ew n client = Ok frame →
  ew.(query_tree_parent) frame = Ok root →
  (∀ k a, k < n → ancestor ew k client = Ok a →
          ew.(query_tree_parent) a ≠ Ok root) →
  get_frame ew client root = Ok frame.
Proof. apply get_frame_loop_climbs. Qed.

Lemma get_frame_child_of_root_witness :
  desk.(query_tree_parent) 1123%Z = Ok 1%Z.
Proof.
  apply (get_frame_child_of_root desk 123%Z 1%Z 1123%Z). reflexivity.
Defined.

Lemma get_frame_climbs_witness : get_frame desk 123%Z 1%Z = Ok 1123%Z.
Proof.
  apply (get_frame_climbs desk 1 123%Z 1%Z 1123%Z).
  - vm_compute. lia.
  - reflexivity.
  - reflexivity.
  - intros k a Hk. assert (k = 0) as -> by lia.
    intros [= <-]. discriminate.
Defined.

(** ** What a capture holds *)

Lemma WmWindow_init_shape (ew : EWMH) (i : Z) (w : WmWindow) :
  WmWindow_init i ew = Ok w →
  w.(id) = i ∧ w.(win) = i ∧ length w.(geometry) = 4.
Proof.
  unfold WmWindow_init, get_geometry.
  destruct (ew.(getWmWindowType) i); [|done].
  destruct (ew.(getWmState) i); [|done].
  destruct (ew.(getWmName) i) as [[b|]|]; [|done..]. cbn [mbind result_bind].
  destruct (decode_utf8 b); [|done]. cbn [mbind result_bind].
  destruct (ew.(win_get_geometry) i); [|done]. cbn [mbind result_bind].
  destruct (get_frame ew i ew.(root)) as [frame|]; [|done].
  cbn [mbind result_bind].
  destruct (ew.(win_get_geometry) frame); [|done]. cbn [mbind result_bind].
  by intros [= <-].
Qed.

Lemma dict_set_key_elem {V} (d : list (Z * V)) (k i : Z) (v : V) :
  i ∈ (dict_set d k v).*1 ↔ i = k ∨ i ∈ d.*1.
Proof.
  rewrite !dict_get_is_Some, dict_get_set.
  destruct (decide (k = i)) as [->|Hne]; [split; eauto|].
  split; [by right|]. by intros [->|?].
Qed.

Lemma dict_set_NoDup {V} (d : list (Z * V)) (k : Z) (v : V) :
  NoDup d.*1 → NoDup (dict_set d k v).*1.
Proof.
  induction d as [|[k0 v0] d IH]; intros Hd.
  - cbn. apply NoDup_singleton.
  - cbn [dict_set]. apply NoDup_cons in Hd as [Hk0 Hd].
    destruct (decide (k0 = k)) as [->|Hne]; cbn.
    + by apply NoDup_cons.
    + apply NoDup_cons. split; [|by apply IH].
      rewrite dict_set_key_elem. by intros [->|?].
Qed.

Lemma dict_set_elem {V} (d : list (Z * V)) (k i : Z) (v x : V) :
  (i, x) ∈ dict_set d k v → (i = k ∧ x = v) ∨ (i, x) ∈ d.
Proof.
  induction d as [|[k0 v0] d IH]; cbn [dict_set].
  - intros [= -> ->]%list_elem_of_singleton. by left.
  - destruct (decide (k0 = k)) as [->|Hne].
    + intros [[= -> ->]|?]%elem_of_cons; [by left|right; by right].
    + intros [[= -> ->]|Hin]%elem_of_cons; [right; left|].
      destruct (IH Hin) as [?|?]; [by left|right; by right].
Qed.

Lemma get_windows_loop_inv (ew : EWMH) (filter : bool) (wins : list Z)
    (acc captured : list (Z * WmWindow)) :
  get_windows_loop ew filter wins acc = Ok captured →
  NoDup acc.*1 →
  NoDup captured.*1
  ∧ ∀ i w, (i, w) ∈ captured →
           (i, w) ∈ acc
           ∨ i ∈ wins ∧ WmWindow_init i ew = Ok w ∧ keeps filter w = true.
Proof.
  revert acc. induction wins as [|win wins IH]; intros acc Hrun Hacc.
  - injection Hrun as <-. split; [done|]. by left.
  - cbn [get_windows_loop] in Hrun.
    destruct (WmWindow_init win ew) as [w0|] eqn:Hw0; [|done].
    cbn [mbind result_bind] in Hrun. fold (keeps filter w0) in Hrun.
    destruct (keeps filter w0) eqn:Hkeep.
    + apply IH in Hrun as [Hnd Hin]; [|by apply dict_set_NoDup].
      split; [done|]. intros i w Hiw.
      destruct (Hin i w Hiw) as [Hset|(? & ? & ?)].
      * apply dict_set_elem in Hset as [[-> ->]|?]; [|by left].
        right. split; [left|done].
      * right. split; [by right|done].
    + apply IH in Hrun as [Hnd Hin]; [|done].
      split; [done|]. intros i w Hiw.
      destruct (Hin i w Hiw) as [?|(? & ? & ?)]; [by left|].
      right. split; [by right|done].
Qed.

(** X13.  A capture is a dictionary without repeated keys, and every
    snapshot in it sits under its own identity: the key, the [id] and the
    Xlib window of the snapshot are the same listed window, and its
    geometry has exactly four components.  With filtering, every
    snapshot has the type list [_NET_WM_WINDOW_TYPE_NORMAL]. *)
Theorem get_windows_snapshots (ew : EWMH) (filter : bool)
    (captured : list (Z * WmWindow)) :
  get_windows ew filter = Ok captured →
  NoDup captured.*1
  ∧ ∀ i w, (i, w) ∈ captured →
           (∃ wins, ew.(getClientList) = Ok wins ∧ i ∈ wins)
           ∧ WmWindow_init i ew = Ok w
           ∧ w.(id) = i ∧ w.(win) = i ∧ length w.(geometry) = 4
           ∧ (filter = true → w.(type) = [NORMAL]).
Proof.
  unfold get_windows.
  destruct ew.(getClientList) as [wins|] eqn:Hlist; [|done].
  cbn [mbind result_bind]. intros Hrun.
  apply get_windows_loop_inv in Hrun as [Hnd Hin]; [|apply NoDup_nil_2].
  split; [done|]. intros i w Hiw.
  destruct (Hin i w Hiw) as [?%elem_of_nil|(Hi & Hinit & Hkeep)]; [done|].
  destruct (WmWindow_init_shape ew i w Hinit) as (? & ? & ?).
  split; [by exists wins|]. repeat (split; [done|]).
  intros ->. by apply keeps_filter.
Qed.

Lemma get_windows_loop_reads (ew : EWMH) (filter : bool) (wins : list Z)
    (acc captured : list (Z * WmWindow)) :
  get_windows_loop ew filter wins acc = Ok captured →
  ∀ i, i ∈ wins → ∃ w, WmWindow_init i ew = Ok w.
Proof.
  revert acc. induction wins as [|win wins IH]; intros acc Hrun i Hi.
  - by apply elem_of_nil in Hi.
  - cbn [get_windows_loop] in Hrun.
    destruct (WmWindow_init win ew) as [w0|] eqn:Hw0; [|done].
    cbn [mbind result_bind] in Hrun.
    apply elem_of_cons in Hi as [->|Hi]; [by exists w0|].
    by eapply IH.
Qed.

(** X14.  Filtering only leaves windows out.  If the filtered capture
    succeeds then so does the unfiltered one, and the filtered capture
    holds exactly the entries of the unfiltered one whose type list is
    [_NET_WM_WINDOW_TYPE_NORMAL], with the same snapshots. *)
Theorem get_windows_filter_restricts (ew : EWMH)
    (filtered : list (Z * WmWindow)) :
  get_windows ew true = Ok filtered →
  ∃ unfiltered,
    get_windows ew false = Ok unfiltered
    ∧ ∀ i w, dict_get filtered i = Some w
             ↔ dict_get unfiltered i = Some w ∧ w.(type) = [NORMAL].
Proof.
  unfold get_windows.
  destruct ew.(getClientList) as [wins|] eqn:Hlist; [|done].
  cbn [mbind result_bind]. intros Hrun.
  pose proof (get_windows_loop_reads _ _ _ _ _ Hrun) as Hreads.
  destruct (get_windows_loop_spec ew true wins [] Hreads)
    as (c1 & Hc1 & Hspec1); [done|].
  destruct (get_windows_loop_spec ew false wins [] Hreads)
    as (c2 & Hc2 & Hspec2); [done|].
  rewrite Hrun in Hc1. injection Hc1 as <-.
  exists c2. split; [done|]. intros i w.
  rewrite Hspec1, Hspec2, keeps_filter. cbn [dict_get keeps negb orb].
  split.
  - intros [(? & ? & ?)|?]; [|done]. split; [left|]; done.
  - intros [[(? & ? & _)|?] ?]; [|done]. by left.
Qed.

Lemma get_windows_snapshots_witness :
  NoDup [(123%Z, editor)].*1
  ∧ ∀ i w, (i, w) ∈ [(123%Z, editor)] →
           (∃ wins, desk.(getClientList) = Ok wins ∧ i ∈ wins)
           ∧ WmWindow_init i desk = Ok w
           ∧ w.(id) = i ∧ w.(win) = i ∧ length w.(geometry) = 4
           ∧ (true = true → w.(type) = [NORMAL]).
Proof.
  apply (get_windows_snapshots desk true [(123%Z, editor)]).
  vm_compute. reflexivity.
Defined.

Lemma get_windows_filter_restricts_witness :
  ∃ unfiltered,
    get_windows desk false = Ok unfiltered
    ∧ ∀ i w, dict_get [(123%Z, editor)] i = Some w
             ↔ dict_get unfiltered i = Some w ∧ w.(type) = [NORMAL].
Proof.
  apply (get_windows_filter_restricts desk [(123%Z, editor)]).
  vm_compute. reflexivity.
Defined.

(** ** State-change requests, keys and fields *)

Lemma py_index_0 {A} (a : A) (l : list A) : py_index (a :: l) 0 = Ok a.
Proof.
  unfold py_index. cbv zeta.
  rewrite (bool_decide_eq_false_2 (0 < 0)%Z) by lia.
  rewrite bool_decide_eq_true_2 by (cbn [length]; lia). done.
Qed.

Lemma py_index_1 {A} (a b : A) (l : list A) : py_index (a :: b :: l) 1 = Ok b.
Proof.
  unfold py_index. cbv zeta.
  rewrite (bool_decide_eq_false_2 (1 < 0)%Z) by lia.
  rewrite bool_decide_eq_true_2 by (cbn [length]; lia). done.
Qed.

Section set_states_facts.
Context `{SetOrder}.

(** X15.  The request built from [list(states) + [0]]: for a set of one
    tag the second data word is the filler [0]; for a larger set the
    request carries two distinct tags of the set; for the empty set the
    second index is out of range, so it is the test [len(states) > 0] in
    [move] that keeps [IndexError] away. *)
Theorem set_states_by_size (self : WmWindow) (action : Z) (s : gset string) :
  (size s = 0 → set_states self action s = Run [] (Raise IndexError))
  ∧ (size s = 1 →
     ∃ a, s = {[a]}
          ∧ set_states self action s
            = Run [SetWmState self.(win) action (JStr a) (JNum 0)] (Ok ()))
  ∧ (2 ≤ size s →
     ∃ a b, a ≠ b ∧ a ∈ s ∧ b ∈ s
            ∧ set_states self action s
              = Run [SetWmState self.(win) action (JStr a) (JStr b)] (Ok ())).
Proof.
  pose proof (list_of_set_length s) as Hlen.
  pose proof (list_of_set_to_set s) as Hs.
  assert (NoDup (list_of_set s)) as Hnd
    by (rewrite (list_of_set_perm s); apply NoDup_elements).
  unfold set_states, states_list.
  destruct (list_of_set s) as [|a [|b l]]; cbn [length] in Hlen.
  - split; [done|]. split; intros; lia.
  - split; [intros; lia|]. split; [|intros; lia]. intros _. exists a.
    split; [|done]. rewrite <- Hs. cbn. by rewrite (right_id_L ∅ (∪)).
  - split; [intros; lia|]. split; [intros; lia|]. intros _. exists a, b.
    apply NoDup_cons in Hnd as [Ha _].
    split; [intros ->; apply Ha; left|].
    split; [rewrite <- Hs; set_solver|]. split; [rewrite <- Hs; set_solver|].
    cbn [fmap list_fmap app]. by rewrite py_index_0, py_index_1.
Qed.

(** X18.  [restore] reads nothing of a persisted entry but its
    [geometry] and [state]: two state files with the same keys in the
    same order, whose entries give the same [geometry] and the same
    [state], are restored in exactly the same way, whatever their
    [type], [name] and [id] fields hold. *)
Theorem restore_reads_geometry_and_state (w w' : World)
    (self : WmWindowPersister) (filename : string) (reload : bool)
    (kvs kvs' : list (string * json)) :
  w.(file) filename = Document (JObj kvs) →
  w'.(file) filename = Document (JObj kvs') →
  Forall2 (λ kv kv', kv.1 = kv'.1 ∧ fields_agree kv.2 kv'.2) kvs kvs' →
  restore w' self filename reload = restore w self filename reload.
Proof.
  intros Hfile Hfile' Hagree.
  assert (Hkeys : kvs'.*1 = kvs.*1).
  { clear Hfile Hfile'.
    induction Hagree as [|[k e] [k' e'] ? ? [Hk _] _ IH]; [done|].
    cbn in *. by rewrite IH, Hk. }
  assert (Hget : ∀ k,
            match dict_get kvs k, dict_get kvs' k with
            | Some e, Some e' => fields_agree e e'
            | None, None => True
            | _, _ => False
            end).
  { intros k. clear Hfile Hfile' Hkeys.
    induction Hagree as [|[k0 e] [k0' e'] ? ? [Hk He] _ IH]; [done|].
    cbn in *. subst k0'. by destruct (decide (k0 = k)). }
  unfold restore, read_data. rewrite Hfile, Hfile', !bind_ret.
  unfold py_len. rewrite (Forall2_length _ _ _ Hagree), !bind_lift_Ok.
  f_equal.
  destruct (current_windows self reload) as [live|e]; [|done].
  rewrite !bind_lift_Ok, !restore_loop_object, Hkeys.
  rewrite (for_each_ext _ _ (λ k, restore_entry live (JObj kvs) (JStr k)));
    [done|].
  intros k _. rewrite !restore_entry_key. specialize (Hget k).
  destruct (dict_get kvs k) as [e|], (dict_get kvs' k) as [e'|]; try done.
  destruct (int_of_string k) as [iid|]; [|done].
  destruct (dict_get live iid); [|done].
  destruct Hget as [Hg Hs]. unfold apply_entry. by rewrite Hg, Hs.
Qed.
End set_states_facts.

(** X16.  [get_options] accepts a command line only in two shapes: the
    program name, the verb [save] or [restore], and optionally one path.
    Without a path the state file is [DEFAULT_STATE_PATH]. *)
Theorem get_options_inversion (w : World) (argv : list string)
    (action path : string) :
  get_options w argv = Ok (Some (action, path)) →
  (action = "save" ∨ action = "restore")
  ∧ ∃ prog, argv = [prog; action] ∧ path = DEFAULT_STATE_PATH w
            ∨ argv = [prog; action; path].
Proof.
  destruct argv as [|prog args]; [done|].
  rewrite get_options_spec. destruct (usage_error args) eqn:Hu; [done|].
  intros [= <- <-]. unfold usage_error in Hu.
  apply orb_false_iff in Hu as [Hu Hverb].
  apply orb_false_iff in Hu as [Hzero Hmany].
  apply bool_decide_eq_false in Hmany.
  destruct args as [|verb [|p [|q rest]]]; cbn in *; try done; try lia.
  - apply negb_false_iff, orb_true_iff in Hverb.
    rewrite !bool_decide_eq_true in Hverb. split; [done|].
    exists prog. by left.
  - apply negb_false_iff, orb_true_iff in Hverb.
    rewrite !bool_decide_eq_true in Hverb. split; [done|].
    exists prog. by right.
Qed.

Lemma get_options_inversion_witness :
  ("restore" = "save" ∨ "restore" = "restore")
  ∧ ∃ prog, ["wmsr.py"; "restore"] = [prog; "restore"]
            ∧ "/home/user/.windows.json"
              = DEFAULT_STATE_PATH (world_with desk doc_editor)
            ∨ ["wmsr.py"; "restore"] = [prog; "restore"; "/home/user/.windows.json"].
Proof.
  apply (get_options_inversion (world_with desk doc_editor)
           ["wmsr.py"; "restore"] "restore" "/home/user/.windows.json").
  reflexivity.
Defined.

(** X17.  Every key [dumps] writes for a window id is a string that the
    [int()] of [restore] parses back to that id. *)
Theorem saved_key_parses (i : Z) : py_int (JStr (key_string (KInt i))) = Ok i.
Proof. cbn. by rewrite int_of_string_pretty. Qed.

Lemma restore_reads_geometry_and_state_witness :
  @restore elements_order
    (world_with desk
       (JObj [("123", JObj [("geometry", JArr [JNum 0; JNum 0; JNum 800; JNum 600]);
                            ("state", JArr [])])]))
    (fresh desk) "state.json" false
  = @restore elements_order (world_with desk doc_editor) (fresh desk)
      "state.json" false.
Proof.
  apply (@restore_reads_geometry_and_state elements_order
           (world_with desk doc_editor)
           (world_with desk
              (JObj [("123", JObj [("geometry",
                                    JArr [JNum 0; JNum 0; JNum 800; JNum 600]);
                                   ("state", JArr [])])]))
           (fresh desk) "state.json" false
           [("123", editor_entry)]
           [("123", JObj [("geometry", JArr [JNum 0; JNum 0; JNum 800; JNum 600]);
                          ("state", JArr [])])]).
  - reflexivity.
  - reflexivity.
  - constructor; [|constructor]. split; [reflexivity|]. split; reflexivity.
Defined.

Lemma restore_after_save_is_noop_witness :
  ∃ doc,
    @save elements_order (world_with desk doc_editor) (fresh desk)
      "state.json" false
    = Run [WriteFile "state.json" doc;
           Print (MsgSaved (length [(123%Z, editor)]))]
          (Ok ({| ew := desk; windows := Some [(123%Z, editor)] |}, true))
    ∧ ((world_with desk
          (JObj [("123", entry_of editor [MAXIMIZED_VERT])])).(file) "state.json"
       = Document doc →
       adapter_calls
         (trace (@restore elements_order
                   (world_with desk
                      (JObj [("123", entry_of editor [MAXIMIZED_VERT])]))
                   {| ew := desk; windows := Some [(123%Z, editor)] |}
                   "state.json" false)) = [Flush]
       ∧ outcome (@restore elements_order
                    (world_with desk
                       (JObj [("123", entry_of editor [MAXIMIZED_VERT])]))
                    {| ew := desk; windows := Some [(123%Z, editor)] |}
                    "state.json" false)
         = Ok ({| ew := desk; windows := Some [(123%Z, editor)] |}, None)).
Proof.
  apply (@restore_after_save_is_noop elements_order
           (world_with desk doc_editor)
           (world_with desk (JObj [("123", entry_of editor [MAXIMIZED_VERT])]))
           (fresh desk) [(123%Z, editor)] "state.json").
  - vm_compute. reflexivity.
  - vm_compute. lia.
  - reflexivity.
Defined.

(** ** Windows without a usable name *)

(** X20.  Every listed window is read in full before the filter is
    applied.  So a window without a name, or with a name that is not
    UTF-8, ends the capture with [AttributeError] or
    [UnicodeDecodeError], whatever its type and whether or not filtering
    would have left it out. *)
Theorem capture_unnamed_window (ew : EWMH) (pre post : list Z) (win : Z)
    (ty st : list string) (raw : option string) :
  ew.(getClientList) = Ok (pre ++ win :: post) →
  (∀ i, i ∈ pre → ∃ w, WmWindow_init i ew = Ok w) →
  ew.(getWmWindowType) win = Ok ty →
  ew.(getWmState) win = Ok st →
  ew.(getWmName) win = Ok raw →
  match raw with
  | None => ∀ filter, get_windows ew filter = Raise AttributeError
  | Some b =>
      utf8_valid (String.list_ascii_of_string b) = false →
      ∀ filter, get_windows ew filter = Raise UnicodeDecodeError
  end.
Proof.
  intros Hlist Hpre Hty Hst Hname.
  assert (Hget : ∀ e, WmWindow_init win ew = Raise e →
                      ∀ filter, get_windows ew filter = Raise e).
  { intros e He filter. unfold get_windows. rewrite Hlist.
    cbn [mbind result_bind]. by apply get_windows_loop_raise. }
  destruct raw as [b|].
  - intros Hb. apply Hget. unfold WmWindow_init.
    rewrite Hty, Hst, Hname. cbn [mbind result_bind].
    unfold decode_utf8. by rewrite Hb.
  - apply Hget. unfold WmWindow_init. by rewrite Hty, Hst, Hname.
Qed.

Lemma capture_unnamed_window_witness :
  get_windows desk_unnamed true = Raise AttributeError
  ∧ get_windows desk_unnamed false = Raise AttributeError.
Proof.
  split;
    apply (capture_unnamed_window desk_unnamed [123%Z] [] 124%Z
             ["_NET_WM_WINDOW_TYPE_DIALOG"] [] None);
    try reflexivity;
    intros i Hi; apply list_elem_of_singleton in Hi as ->;
    eexists; vm_compute; reflexivity.
Defined.
